(** * Lunaa: the conversation session and its stream relay

    A shallow embedding of [lunaa.py]: the [OllamaChat] session (history of
    turns, the [ask_stream] generator with its commit and rollback paths) and
    the worker of [ChatUI] that relays the generator's chunks to the Tk event
    loop.

    Python objects are modelled as follows.
    - A turn [{"role": r, "content": c}] is a record of two strings.
    - The session object is a record [model], [history]; every method takes
      the object and returns the updated one (explicit state passing).
    - A record streamed by the daemon client is a dictionary that is read
      with [.get(key, default)]: a [gmap] looked up with a default.
    - The iterator returned by [ollama.chat(..., stream=True)] is a finite
      script: it hands out records and then either stops or raises.
    - A generator is a resumable state machine: one constructor per point at
      which the body of [ask_stream] can be suspended, and [next] runs the
      body from that point to the following [yield] (or to its end). *)

From Stdlib Require Import String Ascii List Arith Lia.
From stdpp Require Import base option list strings gmap relations.
Import ListNotations.

Local Open Scope string_scope.
Local Open Scope list_scope.

(** ** Python primitives used by the source *)

Module Py.

(** Truth value of a [str]: only the empty string is falsy. *)
Definition truthy (s : string) : bool :=
  match s with
  | EmptyString => false
  | String _ _ => true
  end.

(** ["".join(parts)]. *)
Definition join (parts : list string) : string := String.concat "" parts.

(** [l.pop()]: the last element and the list without it; [None] stands for
    the [IndexError] that Python raises on an empty list. *)
Definition pop {A} (l : list A) : option (A * list A) :=
  match last l with
  | Some x => Some (x, removelast l)
  | None => None
  end.

(** The line feed written [\n] in the source. *)
Definition nl : string := String "010"%char EmptyString.

(** [needle in haystack] for strings, as a proposition. *)
Definition contains (haystack needle : string) : Prop :=
  exists before after, haystack = before +:+ needle +:+ after.

(** [c.isspace()] for a character below code point 256, the characters a
Rocq string holds: tab to carriage return, the four separators from file to
unit, the space, next line and the no-break space. *)
Definition isspace (a : ascii) : bool :=
  let n := nat_of_ascii a in
  (Nat.leb 9 n && Nat.leb n 13) || (Nat.leb 28 n && Nat.leb n 32)
  || Nat.eqb n 133 || Nat.eqb n 160.

Fixpoint lstrip (s : string) : string :=
  match s with
  | EmptyString => EmptyString
  | String a rest => if isspace a then lstrip rest else s
  end.

Fixpoint rstrip (s : string) : string :=
  match s with
  | EmptyString => EmptyString
  | String a rest =>
      match rstrip rest with
      | EmptyString => if isspace a then EmptyString else String a EmptyString
      | kept => String a kept
      end
  end.

(** [s.strip()]: without the whitespace at both ends. *)
Definition strip (s : string) : string := rstrip (lstrip s).

End Py.

(** ** Data model *)

(** One message of the conversation: the dict literal
    [{"role": ..., "content": ...}]. *)
Record Turn := mkTurn { role : string; content : string }.

Definition system_turn (text : string) : Turn := mkTurn "system" text.
Definition user_turn (text : string) : Turn := mkTurn "user" text.
Definition assistant_turn (text : string) : Turn := mkTurn "assistant" text.

(** A record of the daemon's stream: a dict whose ["message"] entry is a dict
    with a ["content"] entry; either key may be absent. *)
Abbreviation Message := (gmap string string).
Abbreviation Chunk := (gmap string (gmap string string)).

(** The iterator the daemon client returns.  [SRaise] at the head is the
    client raising at the call itself (daemon unreachable, model missing);
    further down it is a failure in the middle of the stream.  The payload of
    [SRaise] is [str(e)] of the exception, an instance of [Exception]. *)
Inductive Stream : Type :=
| SYield (chunk : Chunk) (rest : Stream)
| SStop
| SRaise (e : string).

(** [ollama.chat(model=..., messages=..., stream=True)]. *)
Definition Daemon : Type := string -> list Turn -> Stream.

(** What the iterator hands out before it ends, and how it ends. *)
Fixpoint records (s : Stream) : list Chunk :=
  match s with
  | SYield chunk rest => chunk :: records rest
  | SStop | SRaise _ => []
  end.

Fixpoint raised (s : Stream) : option string :=
  match s with
  | SYield _ rest => raised rest
  | SStop => None
  | SRaise e => Some e
  end.

(** ** class OllamaChat *)

Record OllamaChat := mkChat { model : string; history : list Turn }.

(** [self.history.append(turn)]. *)
Definition history_append (self : OllamaChat) (turn : Turn) : OllamaChat :=
  mkChat (model self) (history self ++ [turn]).

(** [os.getenv(key, default)] over the process environment. *)
Definition getenv (environ : gmap string string) (key dflt : string) : string :=
  default dflt (environ !! key).

(** The module constants (lines 18-22). *)
Definition DEFAULT_MODEL (environ : gmap string string) : string :=
  getenv environ "OLLAMA_MODEL" "llama3.1".

Definition SYSTEM_PROMPT (environ : gmap string string) : string :=
  getenv environ "SYSTEM_PROMPT"
    "You are a helpful, concise assistant. Answer clearly and directly.".

(** [OllamaChat.__init__] (lines 26-30). *)
Definition __init__ (model system_prompt : string) : OllamaChat :=
  let self := mkChat model [] in
  if Py.truthy system_prompt
  then history_append self (system_turn system_prompt)
  else self.

(** [chunk.get("message", {}).get("content", "")] (line 43). *)
Definition get_delta (chunk : Chunk) : string :=
  default "" (default (∅ : Message) (chunk !! "message") !! "content").

(** The f-string of the handler (line 49). *)
Definition error_text (e model : string) : string :=
  "[Error] " +:+ e +:+ Py.nl
  +:+ "Make sure the Ollama daemon is running and the model '" +:+ model
  +:+ "' is pulled.".

(** The points at which the generator made by [ask_stream] can rest. *)
Inductive Generator : Type :=
| Created (user_text : string)
    (** made by the call; no line of the body has run yet *)
| AtYieldDelta (rest : Stream) (accumulated : list string)
    (** suspended at [yield delta], inside the [for] and the [try] *)
| AtYieldErr
    (** suspended at [yield err], inside the handler, before the [pop] *)
| Finished.
    (** the body has returned *)

(** What one [next(gen)] gives its caller. *)
Inductive Resumed : Type :=
| Yielded (chunk : string)
| StopIteration
| Raised (exc : string).

(** [ask_stream] has a [yield] in its body, so it is a generator function:
    calling it only makes the generator object, and the body (lines 37-57)
    runs when the object is resumed, see [next]. *)
Definition ask_stream (self : OllamaChat) (user_text : string)
  : Generator * OllamaChat :=
  (Created user_text, self).

(** The [for chunk in ...] loop of the body (lines 42-46), run from the
    iterator position [it] up to the next suspension or to the end of the
    body: a truthy [delta] is accumulated and yielded (lines 44-46), a falsy
    one is passed over; an exception of the iterator enters the handler,
    which yields the error text (lines 47-50); the end of the iterator leaves
    the [try] and commits the assistant turn (lines 56-57). *)
Fixpoint for_chunks (self : OllamaChat) (it : Stream) (accumulated : list string)
  : Resumed * Generator * OllamaChat :=
  match it with
  | SYield chunk rest =>
      let delta := get_delta chunk in
      if Py.truthy delta
      then (Yielded delta, AtYieldDelta rest (accumulated ++ [delta]), self)
      else for_chunks self rest accumulated
  | SRaise e =>
      (Yielded (error_text e (model self)), AtYieldErr, self)
  | SStop =>
      let full := Py.join accumulated in
      (StopIteration, Finished, history_append self (assistant_turn full))
  end.

Section Session.

Variable ollama_chat : Daemon.

(** [next(gen)]: resume the body of [ask_stream].  From [Created] the
    prologue runs first (lines 37-38, then the call of line 42); from
    [AtYieldErr] the rest of the handler runs (lines 52-53). *)
Definition next (gen : Generator) (self : OllamaChat)
  : Resumed * Generator * OllamaChat :=
  match gen with
  | Created user_text =>
      let self := history_append self (user_turn user_text) in
      for_chunks self (ollama_chat (model self) (history self)) []
  | AtYieldDelta rest accumulated =>
      for_chunks self rest accumulated
  | AtYieldErr =>
      match Py.pop (history self) with
      | Some (_, h) => (StopIteration, Finished, mkChat (model self) h)
      | None => (Raised "pop from empty list", Finished, self)
      end
  | Finished => (StopIteration, Finished, self)
  end.

(** The result of consuming a generator with [for chunk in gen]: the chunks
    received, how the iteration ended, and the generator and session it
    leaves. [ended = None] means the fuel ran out first. *)
Record Drained := mkDrained {
  chunks : list string;
  ended : option Resumed;
  gen_after : Generator;
  chat_after : OllamaChat
}.

Fixpoint drain_fuel (fuel : nat) (gen : Generator) (self : OllamaChat) : Drained :=
  match fuel with
  | O => mkDrained [] None gen self
  | S fuel =>
      match next gen self with
      | (Yielded chunk, gen', self') =>
          let d := drain_fuel fuel gen' self' in
          mkDrained (chunk :: chunks d) (ended d) (gen_after d) (chat_after d)
      | (sig, gen', self') => mkDrained [] (Some sig) gen' self'
      end
  end.

(** A bound on the number of [next] calls that consume a generator: one per
    record at most, one for the error chunk, one for the end. *)
Definition resumptions (gen : Generator) (self : OllamaChat) : nat :=
  match gen with
  | Created user_text =>
      let self := history_append self (user_turn user_text) in
      2 + length (records (ollama_chat (model self) (history self)))
  | AtYieldDelta rest _ => 2 + length (records rest)
  | AtYieldErr | Finished => 1
  end.

Definition drain (gen : Generator) (self : OllamaChat) : Drained :=
  drain_fuel (resumptions gen self) gen self.

(** One request, start to end: [for chunk in self.chat.ask_stream(text)]
    (line 168). *)
Definition request (self : OllamaChat) (user_text : string) : Drained :=
  let '(gen, self) := ask_stream self user_text in
  drain gen self.

End Session.

(** The fragments the body keeps from a stream: the truthy [delta]s, in the
    order of their records. *)
Definition deltas (s : Stream) : list string :=
  filter (fun delta => delta <> "") (get_delta <$> records s).

(** ** Conversations: requests made one after the other

    The daemon is outside the program, so its behaviour at each call is an
    input of that request, next to the text the user typed. *)

Record Request := mkRequest { daemon : Daemon; user_text : string }.

(** The iterator that the request's call of the daemon client returns. *)
Definition reply (self : OllamaChat) (r : Request) : Stream :=
  daemon r (model self) (history self ++ [user_turn (user_text r)]).

(** The session after a request whose generator was consumed to its end. *)
Definition serve (self : OllamaChat) (r : Request) : OllamaChat :=
  chat_after (request (daemon r) self (user_text r)).

Definition converse (self : OllamaChat) (rs : list Request) : OllamaChat :=
  foldl serve self rs.

(** Every request of the conversation completes without the client raising. *)
Fixpoint all_succeed (self : OllamaChat) (rs : list Request) : Prop :=
  match rs with
  | [] => True
  | r :: rs => raised (reply self r) = None /\ all_succeed (serve self r) rs
  end.

(** The turns a successful request adds. *)
Definition exchange (self : OllamaChat) (r : Request) : list Turn :=
  [user_turn (user_text r); assistant_turn (Py.join (deltas (reply self r)))].

(** ** class ChatUI: the transcript, the input controls and the relay

    The Tk widgets are records holding what the methods read and write.  The
    worker thread never touches them: it only calls [self.after(0, f, args)],
    which puts a callback at the back of the event loop's queue; the UI
    thread takes callbacks from the front of that queue and runs them. *)

Module ChatUI.

(** [tk.Text]: its [state] option and the tagged pieces inserted so far. *)
Record Text := mkText { text_state : string; inserted : list (string * string) }.

(** [self.text.insert("end", s, tag)]; a disabled widget ignores it. *)
Definition insert_end (s tag : string) (w : Text) : Text :=
  if String.eqb (text_state w) "normal"
  then mkText (text_state w) (inserted w ++ [(s, tag)])
  else w.

Definition configure_state (state : string) (w : Text) : Text :=
  mkText state (inserted w).

Record Widgets := mkWidgets {
  text : Text;
  entry_state : string;
  send_btn_state : string
}.

Definition on_text (f : Text -> Text) (ui : Widgets) : Widgets :=
  mkWidgets (f (text ui)) (entry_state ui) (send_btn_state ui).

Definition _append_assistant_header (ui : Widgets) : Widgets :=
  let ui := on_text (configure_state "normal") ui in
  let ui := on_text (insert_end "Assistant: " "assistant") ui in
  on_text (configure_state "disabled") ui.

Definition _append_assistant_chunk (chunk : string) (ui : Widgets) : Widgets :=
  let ui := on_text (configure_state "normal") ui in
  let ui := on_text (insert_end chunk "assistant") ui in
  on_text (configure_state "disabled") ui.

Definition set_input_enabled (enabled : bool) (ui : Widgets) : Widgets :=
  let state := if enabled then "normal" else "disabled" in
  mkWidgets (text ui) state state.

(** [_append] (lines 116-124); [tag] is [None] when the caller gives none,
and an insert without a tag is recorded with the empty tag. *)
Definition _append (s : string) (tag : option string) (ui : Widgets) : Widgets :=
  let ui := on_text (configure_state "normal") ui in
  let ui :=
    match tag with
    | Some t =>
        if Py.truthy t
        then on_text (insert_end s t) ui
        else on_text (insert_end s "") ui
    | None => on_text (insert_end s "") ui
    end in
  let ui := on_text (insert_end Py.nl "") ui in
  on_text (configure_state "disabled") ui.

Definition _append_meta (s : string) (ui : Widgets) : Widgets :=
  _append s (Some "meta") ui.

Definition _append_user (s : string) (ui : Widgets) : Widgets :=
  _append ("You: " +:+ s) (Some "user") ui.

(** What [_stream_response] hands to [self.after(0, ...)]. *)
Inductive Callback : Type :=
| AppendAssistantHeader
| AppendAssistantChunk (chunk : string)
| SetInputEnabled (enabled : bool).

Definition run (cb : Callback) (ui : Widgets) : Widgets :=
  match cb with
  | AppendAssistantHeader => _append_assistant_header ui
  | AppendAssistantChunk chunk => _append_assistant_chunk chunk ui
  | SetInputEnabled enabled => set_input_enabled enabled ui
  end.

(** Where the thread running [_stream_response] stands. *)
Inductive Worker : Type :=
| Started (user_text : string)
    (** the thread exists; [_stream_response] has not run a line yet *)
| Streaming (gen : Generator)
    (** inside the [for] of [do_stream], about to ask [gen] for a chunk *)
| Returned
    (** [do_stream] has returned *)
| Died (exc : string).
    (** an exception left [do_stream] *)

(** The application while one request is in flight. [delivered] is a ghost
    log of the callbacks the UI thread has run, oldest first. *)
Record App := mkApp {
  chat : OllamaChat;
  worker : Worker;
  after_queue : list Callback;
  ui : Widgets;
  delivered : list Callback
}.

Section Relay.

Variable ollama_chat : Daemon.

(** [self.after(0, cb)] from the worker. *)
Definition after (cb : Callback) (w : Worker) (c : OllamaChat) (a : App) : App :=
  mkApp c w (after_queue a ++ [cb]) (ui a) (delivered a).

(** The worker up to its next [self.after] (lines 165, 169, 170), or the
    end of the thread. *)
Definition worker_step (a : App) : option App :=
  match worker a with
  | Started user_text =>
      let '(gen, c) := ask_stream (chat a) user_text in
      Some (after AppendAssistantHeader (Streaming gen) c a)
  | Streaming gen =>
      match next ollama_chat gen (chat a) with
      | (Yielded chunk, gen', c) =>
          Some (after (AppendAssistantChunk chunk) (Streaming gen') c a)
      | (StopIteration, _, c) =>
          Some (after (SetInputEnabled true) Returned c a)
      | (Raised exc, _, c) =>
          Some (mkApp c (Died exc) (after_queue a) (ui a) (delivered a))
      end
  | Returned | Died _ => None
  end.

(** The UI thread runs the callback at the front of the queue. *)
Definition ui_step (a : App) : option App :=
  match after_queue a with
  | cb :: q =>
      Some (mkApp (chat a) (worker a) q (run cb (ui a)) (delivered a ++ [cb]))
  | [] => None
  end.

(** The two threads interleave in any way. *)
Inductive step (a b : App) : Prop :=
| step_worker : worker_step a = Some b -> step a b
| step_ui : ui_step a = Some b -> step a b.

(** [threading.Thread(target=self._stream_response, args=(text,)).start()]
    with nothing pending in the event loop. *)
Definition spawn (c : OllamaChat) (widgets : Widgets) (user_text : string) : App :=
  mkApp c (Started user_text) [] widgets [].

(** Nothing is left to do: the thread is over and the queue is empty. *)
Definition quiescent (a : App) : Prop :=
  worker_step a = None /\ ui_step a = None.

(** The callbacks of one request, in the order the worker schedules them. *)
Definition scheduled (c : OllamaChat) (user_text : string) : list Callback :=
  [AppendAssistantHeader]
  ++ (AppendAssistantChunk <$> chunks (request ollama_chat c user_text))
  ++ [SetInputEnabled true].

(** What holds of the generator while the worker is inside the [for] of
[do_stream], for the request [user_text] made on the session [c]: [now] is
the session as it stands and [sent] the chunks handed to [after] so far. *)
Definition generator_inv (c : OllamaChat) (user_text : string)
    (gen : Generator) (now : OllamaChat) (sent : list string) : Prop :=
  let c1 := history_append c (user_turn user_text) in
  let it := ollama_chat (model c1) (history c1) in
  match gen with
  | Created user_text' => user_text' = user_text /\ now = c /\ sent = []
  | AtYieldDelta rest accumulated =>
      now = c1 /\ sent = accumulated
      /\ accumulated ++ deltas rest = deltas it /\ raised rest = raised it
  | AtYieldErr =>
      now = c1
      /\ exists e, raised it = Some e /\ sent = deltas it ++ [error_text e (model c)]
  | Finished => False
  end.

(** What holds of the application from [spawn c widgets user_text] on: the
widgets are the initial ones after the delivered callbacks, and the
callbacks delivered or queued are the ones the worker has scheduled up to
the point where it stands. *)
Definition relay_inv (c : OllamaChat) (widgets : Widgets) (user_text : string)
    (a : App) : Prop :=
  ui a = foldl (fun w cb => run cb w) widgets (delivered a)
  /\ match worker a with
     | Started user_text' =>
         user_text' = user_text /\ chat a = c /\ delivered a ++ after_queue a = []
     | Streaming gen =>
         exists sent,
           delivered a ++ after_queue a
           = AppendAssistantHeader :: (AppendAssistantChunk <$> sent)
           /\ generator_inv c user_text gen (chat a) sent
     | Returned =>
         delivered a ++ after_queue a = scheduled c user_text
         /\ chat a = chat_after (request ollama_chat c user_text)
     | Died _ => False
     end.

End Relay.

(** The window as [on_send] and [__init__] see it: the widgets, what the
entry holds, and the session. *)
Record Window := mkWindow {
  widgets : Widgets;
  entry_text : string;
  session : OllamaChat
}.

(** [self.entry.delete(0, "end")]: a disabled entry cannot be edited. *)
Definition entry_delete_all (w : Window) : Window :=
  if String.eqb (entry_state (widgets w)) "normal"
  then mkWindow (widgets w) "" (session w)
  else w.

(** [on_send] (lines 152-161): the window it leaves and, when it starts a
thread, the application with that thread about to run. *)
Definition on_send (w : Window) : Window * option App :=
  let text := Py.strip (entry_text w) in
  if negb (Py.truthy text) then (w, None)
  else
    let w := entry_delete_all w in
    let ui := _append_user text (widgets w) in
    let ui := set_input_enabled false ui in
    (mkWindow ui (entry_text w) (session w),
     Some (spawn (session w) ui text)).

(** [ChatUI.__init__] (lines 61-114), as far as the widgets' contents and
states go: an empty read-only transcript, the input controls in their
default state, the session with the default system prompt, and the banner. *)
Definition __init__ (environ : gmap string string) (model : string) : Window :=
  let chat := __init__ model (SYSTEM_PROMPT environ) in
  let ui := mkWidgets (mkText "disabled" []) "normal" "normal" in
  let banner :=
    "Using model: " +:+ model +:+ Py.nl
    +:+ "Type your message and press Enter." +:+ Py.nl in
  mkWindow (_append_meta banner ui) "" chat.

(** The script part (lines 176-178), up to [mainloop]. *)
Definition main (environ : gmap string string) : Window :=
  __init__ environ (getenv environ "OLLAMA_MODEL" (DEFAULT_MODEL environ)).

(** What a callback adds to the transcript. *)
Definition pieces (cb : Callback) : list (string * string) :=
  match cb with
  | AppendAssistantHeader => [("Assistant: ", "assistant")]
  | AppendAssistantChunk chunk => [(chunk, "assistant")]
  | SetInputEnabled _ => []
  end.

(** A callback that leaves the input controls as they are. *)
Definition keeps_input (cb : Callback) : Prop :=
  match cb with
  | SetInputEnabled _ => False
  | AppendAssistantHeader | AppendAssistantChunk _ => True
  end.

End ChatUI.

(** The turns a conversation of successful requests adds, request by
    request. *)
Fixpoint transcript (self : OllamaChat) (rs : list Request) : list Turn :=
  match rs with
  | [] => []
  | r :: rs => exchange self r ++ transcript (serve self r) rs
  end.

(** The ["content"] entry of the ["message"] entry of a record, if both are
    there. *)
Definition content_field (chunk : Chunk) : option string :=
  chunk !! "message" ≫= fun message => message !! "content".

(** A record as the comment in the source shows it. *)
Definition fragment (text : string) : Chunk :=
  {[ "message" := ({[ "role" := "assistant"; "content" := text ]} : Message) ]}.

(** The number of turns [__init__] puts in the history. *)
Definition system_turns (system_prompt : string) : nat :=
  if Py.truthy system_prompt then 1 else 0.

(** The turns a conversation adds when some requests fail: the exchanges of
    the requests that complete. *)
Fixpoint kept_transcript (self : OllamaChat) (rs : list Request) : list Turn :=
  match rs with
  | [] => []
  | r :: rs =>
      match raised (reply self r) with
      | None => exchange self r
      | Some _ => []
      end ++ kept_transcript (serve self r) rs
  end.

(** How many requests of a conversation complete. *)
Fixpoint completions (self : OllamaChat) (rs : list Request) : nat :=
  match rs with
  | [] => 0
  | r :: rs =>
      match raised (reply self r) with
      | None => 1
      | Some _ => 0
      end + completions (serve self r) rs
  end.

(** * Properties *)

(** ** Python primitives *)

Lemma truthy_nonempty (s : string) : Py.truthy s = true <-> s <> "".
Proof. destruct s; simpl; split; congruence. Qed.

Lemma falsy_empty (s : string) : Py.truthy s = false <-> s = "".
Proof. destruct s; simpl; split; congruence. Qed.

Lemma pop_append {A} (l : list A) (x : A) : Py.pop (l ++ [x]) = Some (x, l).
Proof.
  unfold Py.pop. rewrite last_snoc. by rewrite removelast_last.
Qed.

Lemma contains_middle (a b c : string) : Py.contains (a +:+ b +:+ c) b.
Proof. by exists a, c. Qed.

Lemma append_assoc (a b c : string) : (a +:+ b) +:+ c = a +:+ b +:+ c.
Proof.
  induction a as [|x a IH]; [reflexivity|].
  change (String x ((a +:+ b) +:+ c) = String x (a +:+ b +:+ c)).
  by rewrite IH.
Qed.

Lemma append_empty_r (a : string) : a +:+ "" = a.
Proof.
  induction a as [|x a IH]; [reflexivity|].
  change (String x (a +:+ "") = String x a). by rewrite IH.
Qed.

Lemma contains_refl (a : string) : Py.contains a a.
Proof. exists "", "". change (a = a +:+ ""). by rewrite append_empty_r. Qed.

Lemma contains_append_l (a b needle : string) :
  Py.contains b needle -> Py.contains (a +:+ b) needle.
Proof.
  intros (before & after & ->). exists (a +:+ before), after.
  by rewrite append_assoc.
Qed.

Lemma contains_append_r (a b needle : string) :
  Py.contains a needle -> Py.contains (a +:+ b) needle.
Proof.
  intros (before & after & ->). exists before, (after +:+ b).
  by rewrite !append_assoc.
Qed.

(** ** The kept fragments *)

Lemma deltas_yield_truthy chunk rest :
  Py.truthy (get_delta chunk) = true ->
  deltas (SYield chunk rest) = get_delta chunk :: deltas rest.
Proof.
  intros H%truthy_nonempty. unfold deltas. simpl.
  by rewrite filter_cons_True.
Qed.

Lemma deltas_yield_falsy chunk rest :
  Py.truthy (get_delta chunk) = false ->
  deltas (SYield chunk rest) = deltas rest.
Proof.
  intros H%falsy_empty. unfold deltas. simpl.
  rewrite filter_cons_False; [done|]. by intros [].
Qed.

Lemma deltas_nonempty (s : Stream) : Forall (fun delta => delta <> "") (deltas s).
Proof.
  unfold deltas. apply list.Forall_forall.
  by intros x [? _]%list_elem_of_filter.
Qed.

Lemma deltas_length (s : Stream) : length (deltas s) <= length (records s).
Proof. unfold deltas. rewrite <- (length_fmap get_delta). apply length_filter. Qed.

(** ** Consuming the generator *)

Section Consuming.

Variable ollama_chat : Daemon.

Lemma next_suspended it acc self :
  next ollama_chat (AtYieldDelta it acc) self = for_chunks self it acc.
Proof. reflexivity. Qed.

(** A record without a truthy fragment leaves no trace: the loop goes on
    to the following record within the same [next]. *)
Lemma for_chunks_skip chunk rest acc self :
  Py.truthy (get_delta chunk) = false ->
  for_chunks self (SYield chunk rest) acc = for_chunks self rest acc.
Proof. intros Hd. simpl. by rewrite Hd. Qed.

Lemma drain_fuel_yielded fuel gen self chunk gen' self' :
  next ollama_chat gen self = (Yielded chunk, gen', self') ->
  drain_fuel ollama_chat (S fuel) gen self
  = let d := drain_fuel ollama_chat fuel gen' self' in
    mkDrained (chunk :: chunks d) (ended d) (gen_after d) (chat_after d).
Proof. intros H. simpl. by rewrite H. Qed.

(** The loop that runs to the end of the iterator: the kept fragments are
    yielded in order and the assistant turn is committed. *)
Lemma drain_loop_completes it : forall fuel acc self,
  raised it = None ->
  2 + length (records it) <= fuel ->
  drain_fuel ollama_chat fuel (AtYieldDelta it acc) self
  = mkDrained (deltas it) (Some StopIteration) Finished
      (history_append self (assistant_turn (Py.join (acc ++ deltas it)))).
Proof.
  induction it as [chunk rest IH| |e]; intros fuel acc self Hr Hf;
    simpl in Hr, Hf; [| |discriminate].
  - destruct fuel as [|fuel]; [lia|].
    destruct (Py.truthy (get_delta chunk)) eqn:Hd.
    + rewrite (drain_fuel_yielded _ _ _ (get_delta chunk)
                 (AtYieldDelta rest (acc ++ [get_delta chunk])) self)
        by (simpl; by rewrite Hd).
      rewrite IH by (done || lia). simpl.
      rewrite deltas_yield_truthy by done.
      by rewrite <- app_assoc.
    + rewrite deltas_yield_falsy by done.
      rewrite <- (IH (S fuel) acc self) by (done || lia).
      simpl. by rewrite Hd.
  - destruct fuel as [|fuel]; [lia|]. simpl.
    unfold deltas; simpl. by rewrite app_nil_r.
Qed.

(** The loop during which the client raises: the kept fragments so far are
    yielded, then the error text, and the resumption after it pops the last
    turn of the history. *)
Lemma drain_loop_raises it : forall fuel acc self e turn h,
  raised it = Some e ->
  Py.pop (history self) = Some (turn, h) ->
  2 + length (records it) <= fuel ->
  drain_fuel ollama_chat fuel (AtYieldDelta it acc) self
  = mkDrained (deltas it ++ [error_text e (model self)]) (Some StopIteration)
      Finished (mkChat (model self) h).
Proof.
  induction it as [chunk rest IH| |e']; intros fuel acc self e turn h Hr Hp Hf;
    simpl in Hr, Hf; [|discriminate|].
  - destruct fuel as [|fuel]; [lia|].
    destruct (Py.truthy (get_delta chunk)) eqn:Hd.
    + rewrite (drain_fuel_yielded _ _ _ (get_delta chunk)
                 (AtYieldDelta rest (acc ++ [get_delta chunk])) self)
        by (simpl; by rewrite Hd).
      rewrite (IH _ _ _ e turn h) by (done || lia). simpl.
      by rewrite deltas_yield_truthy.
    + rewrite deltas_yield_falsy by done.
      rewrite <- (IH (S fuel) acc self e turn h) by (done || lia).
      simpl. by rewrite Hd.
  - injection Hr as ->.
    destruct fuel as [|[|fuel]]; [lia|lia|]. simpl. by rewrite Hp.
Qed.

(** The first resumption runs the prologue of the body and then the same
    loop as the later ones. *)
Lemma next_created user_text self :
  next ollama_chat (Created user_text) self
  = for_chunks (history_append self (user_turn user_text))
      (ollama_chat (model self) (history self ++ [user_turn user_text])) [].
Proof. reflexivity. Qed.

Lemma drain_created fuel user_text self :
  drain_fuel ollama_chat fuel (Created user_text) self
  = match fuel with
    | O => mkDrained [] None (Created user_text) self
    | S _ =>
        drain_fuel ollama_chat fuel
          (AtYieldDelta
             (ollama_chat (model self) (history self ++ [user_turn user_text])) [])
          (history_append self (user_turn user_text))
    end.
Proof. by destruct fuel. Qed.

(** A request whose stream completes. *)
Lemma request_completes self user_text :
  let it := ollama_chat (model self) (history self ++ [user_turn user_text]) in
  raised it = None ->
  request ollama_chat self user_text
  = mkDrained (deltas it) (Some StopIteration) Finished
      (mkChat (model self)
         (history self
          ++ [user_turn user_text; assistant_turn (Py.join (deltas it))])).
Proof.
  intros it Hr. unfold request, ask_stream, drain, resumptions.
  rewrite drain_created. cbn [Nat.add model history history_append].
  fold it. rewrite drain_loop_completes by (done || cbn; lia).
  unfold history_append. cbn [model history app].
  by rewrite <- app_assoc.
Qed.

(** A request during which the client raises. *)
Lemma request_raises self user_text e :
  let it := ollama_chat (model self) (history self ++ [user_turn user_text]) in
  raised it = Some e ->
  request ollama_chat self user_text
  = mkDrained (deltas it ++ [error_text e (model self)]) (Some StopIteration)
      Finished (mkChat (model self) (history self)).
Proof.
  intros it Hr. unfold request, ask_stream, drain, resumptions.
  rewrite drain_created. cbn [Nat.add model history history_append].
  fold it.
  rewrite (drain_loop_raises it _ _ _ e (user_turn user_text) (history self));
    [done|done| |cbn; lia].
  cbn [history history_append]. apply pop_append.
Qed.

(** The fuel of [drain] is enough: more of it changes nothing, and the
    iteration of a request always reaches its [StopIteration]. *)
Lemma request_fuel_enough self user_text fuel :
  resumptions ollama_chat (Created user_text) self <= fuel ->
  drain_fuel ollama_chat fuel (Created user_text) self
  = request ollama_chat self user_text.
Proof.
  intros Hf. unfold resumptions in Hf. cbn [model history history_append] in Hf.
  destruct (raised (ollama_chat (model self) (history self ++ [user_turn user_text])))
    as [e|] eqn:Hr.
  - rewrite (request_raises _ _ e) by done. rewrite drain_created.
    destruct fuel as [|fuel]; [lia|].
    rewrite (drain_loop_raises _ _ _ _ e (user_turn user_text) (history self));
      [done|done| |done].
    cbn [history history_append]. apply pop_append.
  - rewrite request_completes by done. rewrite drain_created.
    destruct fuel as [|fuel]; [lia|].
    rewrite drain_loop_completes by done.
    unfold history_append. cbn [model history app]. by rewrite <- app_assoc.
Qed.

Lemma request_ends self user_text :
  ended (request ollama_chat self user_text) = Some StopIteration
  /\ gen_after (request ollama_chat self user_text) = Finished.
Proof.
  destruct (raised (ollama_chat (model self) (history self ++ [user_turn user_text])))
    as [e|] eqn:Hr.
  - by rewrite (request_raises _ _ e).
  - by rewrite request_completes.
Qed.

End Consuming.

(** ** Sanity checks on concrete runs *)

Example get_delta_fragment : get_delta (fragment "4") = "4".
Proof. reflexivity. Qed.

Example get_delta_no_message : get_delta ∅ = "".
Proof. reflexivity. Qed.

Example get_delta_no_content :
  get_delta {[ "message" := ({[ "role" := "assistant" ]} : Message) ]} = "".
Proof. reflexivity. Qed.

Example error_text_example :
  error_text "connection refused" "llama3.1"
  = "[Error] connection refused" +:+ Py.nl
    +:+ "Make sure the Ollama daemon is running and the model 'llama3.1' is pulled.".
Proof. reflexivity. Qed.

Example default_session :
  history (__init__ (DEFAULT_MODEL ∅) (SYSTEM_PROMPT ∅))
  = [system_turn "You are a helpful, concise assistant. Answer clearly and directly."]
  /\ history (__init__ (DEFAULT_MODEL ∅) (SYSTEM_PROMPT {[ "SYSTEM_PROMPT" := "" ]})) = [].
Proof. split; reflexivity. Qed.

Example refused_request :
  let chat := __init__ "llama3.1" "You are terse." in
  let d := request (fun _ _ => SRaise "connection refused") chat "2+2?" in
  chunks d = [error_text "connection refused" "llama3.1"]
  /\ history (chat_after d) = [system_turn "You are terse."].
Proof. split; reflexivity. Qed.

Example broken_midway :
  let chat := __init__ "llama3.1" "" in
  let it := SYield (fragment "Fo") (SYield ∅ (SYield (fragment "ur") (SRaise "reset"))) in
  let d := request (fun _ _ => it) chat "2+2?" in
  chunks d = ["Fo"; "ur"; error_text "reset" "llama3.1"]
  /\ history (chat_after d) = [].
Proof. split; reflexivity. Qed.

(** ** Session creation *)

Lemma init_with_prompt (model system_prompt : string) :
  system_prompt <> "" ->
  history (__init__ model system_prompt) = [system_turn system_prompt].
Proof. intros H%truthy_nonempty. unfold __init__. by rewrite H. Qed.

(** C10: a session constructed with the empty system prompt starts with an
    empty history (no system turn is appended); constructed with a non-empty
    system prompt, its history is exactly one system turn holding that
    prompt. *)
Theorem init_history (model system_prompt : string) :
  history (__init__ model "") = []
  /\ (system_prompt <> "" ->
      history (__init__ model system_prompt) = [mkTurn "system" system_prompt]
      /\ role <$> history (__init__ model system_prompt) = ["system"]
      /\ content <$> history (__init__ model system_prompt) = [system_prompt]).
Proof.
  split; [reflexivity|].
  intros H. by rewrite (init_with_prompt model system_prompt H).
Qed.

Lemma init_history_witness :
  "You are terse." <> ""
  /\ history (__init__ "llama3.1" "You are terse.")
     = [mkTurn "system" "You are terse."].
Proof.
  split; [discriminate|].
  apply (proj2 (init_history "llama3.1" "You are terse.")). discriminate.
Defined.

Lemma init_model (m system_prompt : string) : model (__init__ m system_prompt) = m.
Proof. unfold __init__. by destruct (Py.truthy system_prompt). Qed.

Lemma init_length (m system_prompt : string) :
  length (history (__init__ m system_prompt)) = system_turns system_prompt.
Proof. unfold __init__, system_turns. by destruct (Py.truthy system_prompt). Qed.

(** ** One request *)

(** C1: when the daemon client raises during a request, then once the
    sequence made by [ask_stream] has been consumed to its end the history is
    the one from before the request: the user turn that the request appended
    (it is in the history while the sequence is being produced) is removed
    and no assistant turn is added, so the length is unchanged. *)
Theorem failed_request_restores_history
    (ollama_chat : Daemon) (self : OllamaChat) (user_text e : string) :
  raised (ollama_chat (model self) (history self ++ [user_turn user_text])) = Some e ->
  let first := next ollama_chat (Created user_text) self in
  let d := request ollama_chat self user_text in
  history first.2 = history self ++ [user_turn user_text]
  /\ ended d = Some StopIteration
  /\ gen_after d = Finished
  /\ history (chat_after d) = history self
  /\ length (history (chat_after d)) = length (history self)
  /\ chat_after d = self.
Proof.
  intros Hr first d. subst first d.
  rewrite (request_raises _ _ _ e) by done. cbn [ended gen_after chat_after history].
  split; [|by destruct self].
  rewrite next_created.
  generalize dependent (ollama_chat (model self) (history self ++ [user_turn user_text])).
  intros it Hr.
  generalize (@nil string).
  induction it as [chunk rest IH| |e']; intros acc; simpl in *; try discriminate.
  - destruct (Py.truthy (get_delta chunk)); [done|]. by apply IH.
  - done.
Qed.

Lemma failed_request_restores_history_witness :
  raised (SYield (fragment "Fo") (SRaise "reset")) = Some "reset"
  /\ chat_after (request (fun _ _ => SYield (fragment "Fo") (SRaise "reset"))
                   (__init__ "llama3.1" "You are terse.") "2+2?")
     = __init__ "llama3.1" "You are terse.".
Proof.
  split; [reflexivity|].
  apply (failed_request_restores_history
           (fun _ _ => SYield (fragment "Fo") (SRaise "reset"))
           (__init__ "llama3.1" "You are terse.") "2+2?" "reset").
  reflexivity.
Defined.

(** C2: a request whose stream completes, consumed to its end, appends
    exactly one assistant turn (after the user turn of the request), whose
    content is the concatenation, in order, of the chunks that were yielded;
    with the system prompt "You are terse.", the user text "2+2?" and a
    daemon that streams the single fragment "4", the history ends up as
    system, user "2+2?", assistant "4". *)
Theorem completed_request_commits_answer :
  (forall (ollama_chat : Daemon) (self : OllamaChat) (user_text : string),
     raised (ollama_chat (model self) (history self ++ [mkTurn "user" user_text]))
     = None ->
     let d := request ollama_chat self user_text in
     ended d = Some StopIteration
     /\ gen_after d = Finished
     /\ history (chat_after d)
        = history self
          ++ [mkTurn "user" user_text;
              mkTurn "assistant" (String.concat "" (chunks d))]
     /\ role <$> drop (length (history self)) (history (chat_after d))
        = ["user"; "assistant"]
     /\ content <$> last (history (chat_after d))
        = Some (String.concat "" (chunks d)))
  /\ history (chat_after (request (fun _ _ => SYield (fragment "4") SStop)
                            (__init__ "llama3.1" "You are terse.") "2+2?"))
     = [mkTurn "system" "You are terse."; mkTurn "user" "2+2?";
        mkTurn "assistant" "4"].
Proof.
  split; [|reflexivity].
  intros ollama_chat self user_text Hr d. subst d.
  change (mkTurn "user" user_text) with (user_turn user_text) in Hr.
  rewrite request_completes by done.
  cbn [ended gen_after chat_after chunks history].
  split; [done|]. split; [done|]. split; [done|]. split.
  - by rewrite drop_app_length.
  - by rewrite (last_app_cons _ [_]).
Qed.

Lemma completed_request_commits_answer_witness :
  raised (SYield (fragment "Hel") (SYield (fragment "lo") SStop)) = None
  /\ history (chat_after
                (request (fun _ _ => SYield (fragment "Hel") (SYield (fragment "lo") SStop))
                   (__init__ "llama3.1" "") "hi"))
     = [mkTurn "user" "hi"; mkTurn "assistant" "Hello"].
Proof.
  split; [reflexivity|].
  apply (proj1 completed_request_commits_answer
           (fun _ _ => SYield (fragment "Hel") (SYield (fragment "lo") SStop))
           (__init__ "llama3.1" "") "hi").
  reflexivity.
Defined.

(** C4: when the daemon client raises while the chunks are produced, the
    sequence yields, after the fragments already streamed, exactly one more
    chunk, made of the text of the error and of a hint that names the Ollama
    daemon and the model of the session, and then ends with [StopIteration]:
    no exception reaches the consumer, and the history gains no turn (so no
    assistant turn). *)
Theorem error_surfaces_as_final_chunk
    (ollama_chat : Daemon) (self : OllamaChat) (user_text e : string) :
  let it := ollama_chat (model self) (history self ++ [user_turn user_text]) in
  raised it = Some e ->
  let d := request ollama_chat self user_text in
  let err := error_text e (model self) in
  chunks d = deltas it ++ [err]
  /\ err = "[Error] " +:+ e +:+ Py.nl
           +:+ "Make sure the Ollama daemon is running and the model '"
           +:+ model self +:+ "' is pulled."
  /\ Py.contains err e
  /\ Py.contains err "Ollama daemon"
  /\ Py.contains err (model self)
  /\ ended d = Some StopIteration
  /\ gen_after d = Finished
  /\ history (chat_after d) = history self.
Proof.
  intros it Hr d err. subst d err.
  rewrite (request_raises _ _ _ e) by done.
  cbn [chunks ended gen_after chat_after history].
  repeat split.
  - unfold error_text. apply contains_middle.
  - unfold error_text. do 3 apply contains_append_l.
    apply contains_append_r.
    by exists "Make sure the ", " is running and the model '".
  - unfold error_text. do 4 apply contains_append_l.
    apply contains_append_r, contains_refl.
Qed.

Lemma error_surfaces_as_final_chunk_witness :
  raised (SRaise "connection refused") = Some "connection refused"
  /\ chunks (request (fun _ _ => SRaise "connection refused")
               (__init__ "llama3.1" "You are terse.") "2+2?")
     = [error_text "connection refused" "llama3.1"]
  /\ history (chat_after (request (fun _ _ => SRaise "connection refused")
                            (__init__ "llama3.1" "You are terse.") "2+2?"))
     = [system_turn "You are terse."].
Proof.
  split; [reflexivity|].
  pose proof (error_surfaces_as_final_chunk (fun _ _ => SRaise "connection refused")
                (__init__ "llama3.1" "You are terse.") "2+2?" "connection refused"
                eq_refl) as H.
  cbv zeta in H. destruct H as (Hc & _ & _ & _ & _ & _ & _ & Hh).
  split; [exact Hc | exact Hh].
Defined.

(** The first resumption leaves the user turn in the history, whatever the
    stream does: right behind the earlier turns, followed at most by the
    assistant turn when the stream is over at once. *)
Lemma first_resumption_history (ollama_chat : Daemon) self user_text :
  let it := ollama_chat (model self) (history self ++ [user_turn user_text]) in
  let first := next ollama_chat (Created user_text) self in
  match first.1.1 with
  | Yielded _ => history first.2 = history self ++ [user_turn user_text]
  | StopIteration =>
      history first.2
      = history self ++ [user_turn user_text; assistant_turn (Py.join (deltas it))]
  | Raised _ => False
  end.
Proof.
  intros it first. subst first. rewrite next_created. fold it.
  assert (Hgen : forall acc,
    match (for_chunks (history_append self (user_turn user_text)) it acc).1.1 with
    | Yielded _ =>
        history (for_chunks (history_append self (user_turn user_text)) it acc).2
        = history self ++ [user_turn user_text]
    | StopIteration =>
        history (for_chunks (history_append self (user_turn user_text)) it acc).2
        = history self ++ [user_turn user_text; assistant_turn (Py.join (acc ++ deltas it))]
    | Raised _ => False
    end).
  { induction it as [chunk rest IH| |e]; intros acc; simpl.
    - destruct (Py.truthy (get_delta chunk)) eqn:Hd; simpl; [done|].
      rewrite deltas_yield_falsy by done. apply IH.
    - unfold deltas; simpl. by rewrite app_nil_r, <- app_assoc.
    - done. }
  apply (Hgen []).
Qed.

(** C6, as the code has it: the call of [ask_stream] only makes the lazy
    sequence and leaves the history as it was; the user turn with content
    [user_text] is appended by the first resumption of the sequence, before
    the daemon client is called (the client receives the history with that
    turn at its end) and before any chunk is produced: whenever the first
    resumption yields a chunk, the history is the earlier one followed by
    the user turn. *)
Theorem user_turn_appended_on_first_resumption
    (ollama_chat : Daemon) (self : OllamaChat) (user_text : string) :
  ask_stream self user_text = (Created user_text, self)
  /\ next ollama_chat (Created user_text) self
     = for_chunks (mkChat (model self) (history self ++ [mkTurn "user" user_text]))
         (ollama_chat (model self) (history self ++ [mkTurn "user" user_text])) []
  /\ (history self ++ [mkTurn "user" user_text])
       `prefix_of` history (next ollama_chat (Created user_text) self).2
  /\ match (next ollama_chat (Created user_text) self).1.1 with
     | Yielded _ =>
         history (next ollama_chat (Created user_text) self).2
         = history self ++ [mkTurn "user" user_text]
     | StopIteration => True
     | Raised _ => False
     end.
Proof.
  split; [reflexivity|]. split; [reflexivity|].
  change (mkTurn "user" user_text) with (user_turn user_text).
  pose proof (first_resumption_history ollama_chat self user_text) as H.
  cbv zeta in H.
  destruct (next ollama_chat (Created user_text) self) as [[sig gen] self'].
  simpl in *. destruct sig; [|split; [|done]|done].
  - rewrite H. split; [done|done].
  - rewrite H. by apply prefix_app, prefix_cons, prefix_nil.
Qed.

(** C6, as the claim words it, fails: right after the call
    [ask_stream("hi")] on a session without turns, the history holds no user
    turn. *)
Lemma call_alone_appends_nothing :
  history (ask_stream (__init__ "llama3.1" "") "hi").2 = []
  /\ history (ask_stream (__init__ "llama3.1" "") "hi").2
     <> history (__init__ "llama3.1" "") ++ [mkTurn "user" "hi"].
Proof. split; [reflexivity | discriminate]. Qed.

(** C9: a record whose content entry is missing (no ["message"], or no
    ["content"] in it) or empty is passed over by the loop: nothing is
    yielded for it and nothing is accumulated.  Hence, when the stream
    completes, the chunks yielded are the non-empty content entries of the
    records, in order, every one of them a non-empty string, and the content
    of the assistant turn is their concatenation. *)
Theorem empty_fragments_are_dropped :
  (forall (chunk : Chunk),
     content_field chunk = None \/ content_field chunk = Some "" ->
     forall self rest accumulated,
       for_chunks self (SYield chunk rest) accumulated
       = for_chunks self rest accumulated)
  /\ (forall (ollama_chat : Daemon) (self : OllamaChat) (user_text : string),
        let it :=
          ollama_chat (model self) (history self ++ [mkTurn "user" user_text]) in
        raised it = None ->
        let d := request ollama_chat self user_text in
        let kept :=
          omap (fun chunk => match content_field chunk with
                             | Some "" | None => None
                             | Some text => Some text
                             end) (records it) in
        chunks d = kept
        /\ Forall (fun chunk => chunk <> "") (chunks d)
        /\ last (history (chat_after d))
           = Some (mkTurn "assistant" (String.concat "" kept))
        /\ content <$> last (history (chat_after d))
           = Some (String.concat "" kept)).
Proof.
  assert (Hfield : forall chunk : Chunk,
             get_delta chunk = default "" (content_field chunk)).
  { intros chunk. unfold get_delta, content_field.
    destruct (chunk !! "message"); simpl; [done|]. by rewrite lookup_empty. }
  split.
  - intros chunk Hc self rest acc. apply for_chunks_skip.
    rewrite Hfield. by destruct Hc as [-> | ->].
  - intros ollama_chat self user_text it Hr d kept.
    assert (Hk : deltas it = kept).
    { subst kept. unfold deltas. generalize (records it). intros cs.
      induction cs as [|chunk cs IH]; [done|].
      rewrite fmap_cons. cbn [omap list_omap]. rewrite Hfield.
      destruct (content_field chunk) as [[|a text]|]; simpl.
      * rewrite filter_cons_False by (by intros []). apply IH.
      * rewrite filter_cons_True by done. by rewrite IH.
      * rewrite filter_cons_False by (by intros []). apply IH. }
    assert (Hreq : d = mkDrained (deltas it) (Some StopIteration) Finished
                         (mkChat (model self)
                            (history self
                             ++ [mkTurn "user" user_text;
                                 mkTurn "assistant" (String.concat "" (deltas it))])))
      by (apply request_completes; exact Hr).
    rewrite Hreq. cbn [chunks chat_after history].
    rewrite (last_app_cons _ [_]). cbn [last fmap option_fmap option_map].
    split; [done|]. split; [apply deltas_nonempty|]. by rewrite Hk.
Qed.

Lemma empty_fragments_are_dropped_witness :
  (content_field (∅ : Chunk) = None \/ content_field (∅ : Chunk) = Some "")
  /\ for_chunks (__init__ "llama3.1" "") (SYield ∅ (SYield (fragment "4") SStop)) []
     = for_chunks (__init__ "llama3.1" "") (SYield (fragment "4") SStop) [].
Proof.
  split; [by left|].
  apply (proj1 empty_fragments_are_dropped ∅). by left.
Defined.

(** ** Conversations *)

Lemma serve_completes self r :
  raised (reply self r) = None ->
  serve self r = mkChat (model self) (history self ++ exchange self r).
Proof. intros Hr. unfold serve. by rewrite request_completes. Qed.

Lemma serve_raises self r e :
  raised (reply self r) = Some e -> serve self r = self.
Proof.
  intros Hr. unfold serve. rewrite (request_raises _ _ _ e) by done.
  by destruct self.
Qed.

Lemma serve_cases self r :
  serve self r = self
  \/ serve self r = mkChat (model self) (history self ++ exchange self r).
Proof.
  destruct (raised (reply self r)) as [e|] eqn:Hr.
  - left. by apply (serve_raises _ _ e).
  - right. by apply serve_completes.
Qed.

Lemma serve_extends self r : history self `prefix_of` history (serve self r).
Proof.
  destruct (serve_cases self r) as [-> | ->]; [done|].
  by apply prefix_app_r.
Qed.

Lemma converse_extends rs : forall self,
  history self `prefix_of` history (converse self rs).
Proof.
  induction rs as [|r rs IH]; intros self; [done|].
  etrans; [apply (serve_extends self r) | apply IH].
Qed.

Lemma converse_model rs : forall self, model (converse self rs) = model self.
Proof.
  induction rs as [|r rs IH]; intros self; [done|].
  cbn. unfold converse in IH. rewrite IH.
  by destruct (serve_cases self r) as [-> | ->].
Qed.

Lemma converse_all_succeed rs : forall self,
  all_succeed self rs ->
  history (converse self rs) = history self ++ transcript self rs.
Proof.
  induction rs as [|r rs IH]; intros self Hok; cbn.
  - by rewrite app_nil_r.
  - destruct Hok as [Hr Hok]. unfold converse in IH. rewrite IH by done.
    rewrite serve_completes by done. cbn [history]. by rewrite <- app_assoc.
Qed.

Lemma transcript_roles rs : forall self,
  role <$> transcript self rs = mjoin (replicate (length rs) ["user"; "assistant"]).
Proof.
  induction rs as [|r rs IH]; intros self; [done|].
  cbn [transcript length replicate mjoin]. rewrite fmap_app, IH. done.
Qed.

Lemma transcript_length rs self : length (transcript self rs) = 2 * length rs.
Proof.
  rewrite <- (length_fmap role), transcript_roles.
  generalize (length rs). intros n.
  induction n as [|n IH]; [done|].
  change (S (S (length (mjoin (replicate n ["user"; "assistant"])))) = 2 * S n).
  rewrite IH. lia.
Qed.

(** C3: after [N] requests on a fresh session, every one of them completing
    and consumed to its end, the history has as many turns as [__init__] put
    there (one if a system prompt was configured, none otherwise) plus
    [2 * N], and from the first user turn on the roles go user, assistant,
    user, assistant, and so on. *)
Theorem history_after_successful_requests
    (model system_prompt : string) (rs : list Request) :
  all_succeed (__init__ model system_prompt) rs ->
  let h := history (converse (__init__ model system_prompt) rs) in
  length h = (if Py.truthy system_prompt then 1 else 0) + 2 * length rs
  /\ role <$> drop (if Py.truthy system_prompt then 1 else 0) h
     = mjoin (replicate (length rs) ["user"; "assistant"])
  /\ h = history (__init__ model system_prompt)
         ++ transcript (__init__ model system_prompt) rs.
Proof.
  intros Hok h. subst h. rewrite converse_all_succeed by done.
  fold (system_turns system_prompt). rewrite <- (init_length model).
  split; [|split; [|done]].
  - by rewrite length_app, transcript_length.
  - rewrite drop_app_length. apply transcript_roles.
Qed.

Lemma history_after_successful_requests_witness :
  all_succeed (__init__ "llama3.1" "You are terse.")
    [mkRequest (fun _ _ => SYield (fragment "4") SStop) "2+2?";
     mkRequest (fun _ _ => SYield (fragment "6") SStop) "3+3?"]
  /\ length (history (converse (__init__ "llama3.1" "You are terse.")
       [mkRequest (fun _ _ => SYield (fragment "4") SStop) "2+2?";
        mkRequest (fun _ _ => SYield (fragment "6") SStop) "3+3?"])) = 5.
Proof.
  assert (Hok : all_succeed (__init__ "llama3.1" "You are terse.")
    [mkRequest (fun _ _ => SYield (fragment "4") SStop) "2+2?";
     mkRequest (fun _ _ => SYield (fragment "6") SStop) "3+3?"])
    by (repeat split; reflexivity).
  split; [exact Hok|].
  exact (proj1 (history_after_successful_requests "llama3.1" "You are terse." _ Hok)).
Defined.

(** C5: a system turn present when the session is created is still the first
    element of the history after any number of requests, each consumed to
    its end, whichever of them complete and whichever fail. *)
Theorem system_turn_stays_first
    (model system_prompt : string) (rs : list Request) :
  system_prompt <> "" ->
  head (history (converse (__init__ model system_prompt) rs))
  = Some (mkTurn "system" system_prompt)
  /\ history (__init__ model system_prompt)
       `prefix_of` history (converse (__init__ model system_prompt) rs).
Proof.
  intros Hsp.
  pose proof (converse_extends rs (__init__ model system_prompt)) as Hpre.
  split; [|done].
  rewrite (init_with_prompt model system_prompt Hsp) in Hpre.
  by destruct Hpre as [k ->].
Qed.

Lemma system_turn_stays_first_witness :
  "You are terse." <> ""
  /\ head (history (converse (__init__ "llama3.1" "You are terse.")
       [mkRequest (fun _ _ => SRaise "connection refused") "2+2?";
        mkRequest (fun _ _ => SYield (fragment "4") SStop) "2+2?";
        mkRequest (fun _ _ => SYield (fragment "6") (SRaise "reset")) "3+3?"]))
     = Some (mkTurn "system" "You are terse.").
Proof.
  split; [discriminate|].
  apply (system_turn_stays_first "llama3.1" "You are terse."). discriminate.
Defined.

(** C8: two failing requests in a row, each consumed to its end, leave the
    session, and so its history, exactly as it was before the first. *)
Theorem two_failures_leave_history_unchanged
    (self : OllamaChat) (r1 r2 : Request) (e1 e2 : string) :
  raised (reply self r1) = Some e1 ->
  raised (reply (serve self r1) r2) = Some e2 ->
  serve self r1 = self
  /\ converse self [r1; r2] = self
  /\ history (converse self [r1; r2]) = history self.
Proof.
  intros H1 H2. cbn.
  rewrite (serve_raises _ r2 e2) by done.
  rewrite (serve_raises _ r1 e1) by done. done.
Qed.

Lemma two_failures_leave_history_unchanged_witness :
  raised (reply (__init__ "llama3.1" "You are terse.")
            (mkRequest (fun _ _ => SRaise "connection refused") "2+2?"))
  = Some "connection refused"
  /\ converse (__init__ "llama3.1" "You are terse.")
       [mkRequest (fun _ _ => SRaise "connection refused") "2+2?";
        mkRequest (fun _ _ => SYield (fragment "4") (SRaise "reset")) "2+2?"]
     = __init__ "llama3.1" "You are terse.".
Proof.
  split; [reflexivity|].
  apply (two_failures_leave_history_unchanged
           (__init__ "llama3.1" "You are terse.")
           (mkRequest (fun _ _ => SRaise "connection refused") "2+2?")
           (mkRequest (fun _ _ => SYield (fragment "4") (SRaise "reset")) "2+2?")
           "connection refused" "reset"); reflexivity.
Defined.

(** ** The relay *)

(** One run of the loop of the body, from a resting point to the next. *)
Lemma for_chunks_cases self it : forall acc,
  match for_chunks self it acc with
  | (Yielded chunk, AtYieldDelta rest acc', self') =>
      self' = self /\ acc' = acc ++ [chunk]
      /\ deltas it = chunk :: deltas rest /\ raised rest = raised it
  | (Yielded chunk, AtYieldErr, self') =>
      self' = self /\ deltas it = []
      /\ exists e, raised it = Some e /\ chunk = error_text e (model self)
  | (StopIteration, Finished, self') =>
      self' = history_append self (assistant_turn (Py.join acc))
      /\ deltas it = [] /\ raised it = None
  | _ => False
  end.
Proof.
  induction it as [chunk rest IH| |e]; intros acc; simpl.
  - destruct (Py.truthy (get_delta chunk)) eqn:Hd.
    + by rewrite deltas_yield_truthy.
    + rewrite deltas_yield_falsy by done. apply IH.
  - done.
  - split; [done|]. split; [done|]. by exists e.
Qed.

Section RelayProperties.

Import ChatUI.

Variable ollama_chat : Daemon.
Variable c : OllamaChat.
Variable widgets : Widgets.
Variable user_text : string.

Let c1 := history_append c (user_turn user_text).
Let it0 := ollama_chat (model c1) (history c1).
Let served := request ollama_chat c user_text.

Local Abbreviation inv := (relay_inv ollama_chat c widgets user_text).
Local Abbreviation gen_inv := (generator_inv ollama_chat c user_text).

Lemma served_completes :
  raised it0 = None ->
  served
  = mkDrained (deltas it0) (Some StopIteration) Finished
      (mkChat (model c)
         (history c ++ [user_turn user_text; assistant_turn (Py.join (deltas it0))])).
Proof. intros H. by apply request_completes. Qed.

Lemma served_raises e :
  raised it0 = Some e ->
  served
  = mkDrained (deltas it0 ++ [error_text e (model c)]) (Some StopIteration)
      Finished (mkChat (model c) (history c)).
Proof. intros H. by apply request_raises. Qed.

(** Resuming the loop keeps the generator within [generator_inv], or ends
    the sequence with everything yielded and the session as the whole
    request leaves it. *)
Lemma loop_resumes it acc :
  acc ++ deltas it = deltas it0 ->
  raised it = raised it0 ->
  match for_chunks c1 it acc with
  | (Yielded chunk, gen', self') => gen_inv gen' self' (acc ++ [chunk])
  | (StopIteration, _, self') => acc = chunks served /\ self' = chat_after served
  | (Raised _, _, _) => False
  end.
Proof.
  intros Hacc Hr. pose proof (for_chunks_cases c1 it acc) as H.
  destruct (for_chunks c1 it acc) as [[[chunk| |exc] gen'] self'];
    destruct gen' as [?|rest acc'| |]; try done.
  - destruct H as (-> & -> & Hd & Hr'). unfold generator_inv. fold c1 it0.
    split; [done|]. split; [done|]. split; [|by rewrite Hr'].
    rewrite <- Hacc, Hd. by rewrite <- app_assoc.
  - destruct H as (-> & Hd & e & He & ->). unfold generator_inv. fold c1 it0.
    split; [done|]. exists e. split; [by rewrite <- Hr|].
    rewrite <- Hacc, Hd, app_nil_r. done.
  - destruct H as (-> & Hd & Hn). rewrite Hd, app_nil_r in Hacc. subst acc.
    rewrite served_completes by (by rewrite <- Hr).
    cbn [chunks chat_after]. split; [done|].
    unfold c1, history_append. cbn [model history]. by rewrite <- app_assoc.
Qed.

Lemma generator_resumes gen now sent :
  gen_inv gen now sent ->
  match next ollama_chat gen now with
  | (Yielded chunk, gen', self') => gen_inv gen' self' (sent ++ [chunk])
  | (StopIteration, _, self') => sent = chunks served /\ self' = chat_after served
  | (Raised _, _, _) => False
  end.
Proof.
  destruct gen as [u'|rest acc| |]; cbn [generator_inv]; fold c1 it0.
  - intros (-> & -> & ->). rewrite next_created. by apply (loop_resumes it0 []).
  - intros (-> & -> & Hacc & Hr). rewrite next_suspended. by apply loop_resumes.
  - intros (-> & e & He & ->). cbn [next]. unfold c1 at 1. cbn [history history_append].
    rewrite pop_append. rewrite (served_raises e) by done.
    cbn [chunks chat_after]. done.
  - done.
Qed.

Lemma inv_spawn : inv (spawn c widgets user_text).
Proof. by split. Qed.

(** A step of the worker schedules one callback behind the queued ones and
    delivers nothing. *)
Lemma inv_worker_step a b :
  inv a -> worker_step ollama_chat a = Some b ->
  inv b /\ delivered b = delivered a
  /\ exists cb, after_queue b = after_queue a ++ [cb].
Proof.
  intros [Hui Hw] Hstep. unfold worker_step in Hstep.
  destruct (worker a) as [u'|gen| |exc] eqn:Hwa; [| |done|done].
  - destruct Hw as (-> & Hc & Hq). injection Hstep as <-.
    split; [|split; [done|by eexists]]. split; [done|].
    cbn. exists []. rewrite app_assoc, Hq. split; [done|]. by rewrite Hc.
  - destruct Hw as (sent & Hq & Hg).
    pose proof (generator_resumes gen (chat a) sent Hg) as Hn.
    destruct (next ollama_chat gen (chat a)) as [[[chunk| |exc] gen'] self'];
      [| |done]; injection Hstep as <-.
    + split; [|split; [done|by eexists]]. split; [done|].
      cbn. exists (sent ++ [chunk]). split; [|done].
      by rewrite app_assoc, Hq, fmap_app.
    + destruct Hn as [-> ->].
      split; [|split; [done|by eexists]]. split; [done|].
      cbn. split; [|done]. rewrite app_assoc, Hq. done.
Qed.

(** A step of the UI thread delivers the callback at the front of the queue
    and runs it on the widgets. *)
Lemma inv_ui_step a b :
  inv a -> ui_step a = Some b ->
  inv b /\ worker b = worker a
  /\ exists cb, after_queue a = cb :: after_queue b
                /\ delivered b = delivered a ++ [cb].
Proof.
  intros [Hui Hw] Hstep. unfold ui_step in Hstep.
  destruct (after_queue a) as [|cb q] eqn:Hq; [done|]. injection Hstep as <-.
  split; [|split; [done|by exists cb]]. split.
  - cbn. by rewrite foldl_snoc, Hui.
  - cbn. rewrite <- app_assoc. exact Hw.
Qed.

Lemma inv_step a b :
  inv a -> step ollama_chat a b ->
  inv b /\ 2 * length (delivered b) + length (after_queue b)
           = S (2 * length (delivered a) + length (after_queue a)).
Proof.
  intros Ha [Hs|Hs].
  - destruct (inv_worker_step a b Ha Hs) as (Hb & -> & cb & ->).
    split; [done|]. rewrite length_app. cbn. lia.
  - destruct (inv_ui_step a b Ha Hs) as (Hb & _ & cb & -> & ->).
    split; [done|]. rewrite length_app. cbn. lia.
Qed.

Lemma inv_nsteps n : forall a,
  nsteps (step ollama_chat) n (spawn c widgets user_text) a ->
  inv a /\ n = 2 * length (delivered a) + length (after_queue a).
Proof.
  induction n as [|n IH]; intros a H.
  - inversion H; subst. split; [apply inv_spawn | done].
  - apply nsteps_inv_r in H as (y & Hy & Hstep).
    destruct (IH y Hy) as [Hinv ->].
    destruct (inv_step y a Hinv Hstep) as [Ha ->]. done.
Qed.

Lemma inv_reachable a :
  rtc (step ollama_chat) (spawn c widgets user_text) a -> inv a.
Proof. intros [n H]%rtc_nsteps. by apply (inv_nsteps n). Qed.

(** The chunks of the whole request: the kept fragments, then the error text
    if the client raised. *)
Lemma chunks_served :
  chunks served
  = deltas it0 ++ match raised it0 with
                  | Some e => [error_text e (model c)]
                  | None => []
                  end.
Proof.
  destruct (raised it0) as [e|] eqn:Hr.
  - by rewrite (served_raises e).
  - rewrite served_completes by done. cbn. by rewrite app_nil_r.
Qed.

Lemma gen_inv_prefix gen now sent :
  gen_inv gen now sent -> exists more, sent ++ more = chunks served.
Proof.
  rewrite chunks_served.
  destruct gen as [u'|rest acc| |]; cbn [generator_inv]; fold c1 it0.
  - intros (_ & _ & ->). by eexists.
  - intros (_ & -> & <- & _). eexists. apply List.app_assoc.
  - intros (_ & e & -> & ->). exists []. by rewrite app_nil_r.
  - done.
Qed.

(** Delivered, then queued, is an initial part of the schedule. *)
Lemma inv_prefix a :
  inv a ->
  exists later,
    delivered a ++ after_queue a ++ later = scheduled ollama_chat c user_text.
Proof.
  intros [_ Hw]. unfold scheduled. fold served.
  destruct (worker a) as [u'|gen| |exc]; [| | |done].
  - destruct Hw as (_ & _ & Hq). eexists. by rewrite app_assoc, Hq.
  - destruct Hw as (sent & Hq & Hg).
    destruct (gen_inv_prefix _ _ _ Hg) as [more <-].
    exists ((AppendAssistantChunk <$> more) ++ [SetInputEnabled true]).
    rewrite app_assoc, Hq, fmap_app. cbn. by rewrite <- app_assoc.
  - destruct Hw as [Hq _]. exists []. by rewrite app_nil_r.
Qed.

Lemma inv_bound a :
  inv a ->
  2 * length (delivered a) + length (after_queue a)
  <= 2 * length (scheduled ollama_chat c user_text).
Proof.
  intros [later <-]%inv_prefix. rewrite !length_app. lia.
Qed.

Lemma quiescent_cases a :
  quiescent ollama_chat a \/ exists b, step ollama_chat a b.
Proof.
  destruct (ui_step a) as [b|] eqn:Hu; [right; exists b; by apply step_ui|].
  destruct (worker_step ollama_chat a) as [b|] eqn:Hw;
    [right; exists b; by apply step_worker|].
  by left.
Qed.

(** At rest, everything scheduled has been delivered, in order, and the
    session is as the request leaves it. *)
Lemma inv_quiescent a :
  inv a -> quiescent ollama_chat a ->
  delivered a = scheduled ollama_chat c user_text
  /\ chat a = chat_after served.
Proof.
  intros [_ Hw] [Hws Hus]. unfold worker_step in Hws. unfold ui_step in Hus.
  destruct (after_queue a) as [|cb q] eqn:Hq; [|done].
  destruct (worker a) as [u'|gen| |exc]; [done| | |done].
  - by destruct (next ollama_chat gen (chat a)) as [[[chunk| |exc] gen'] self'].
  - by rewrite app_nil_r in Hw.
Qed.

(** Every run can be continued to rest. *)
Lemma inv_completes k : forall a,
  inv a ->
  2 * length (scheduled ollama_chat c user_text)
  - (2 * length (delivered a) + length (after_queue a)) <= k ->
  exists b, rtc (step ollama_chat) a b /\ quiescent ollama_chat b.
Proof.
  induction k as [|k IH]; intros a Ha Hk;
    (destruct (quiescent_cases a) as [Hq|[b Hb]]; [by exists a|]);
    destruct (inv_step a b Ha Hb) as [Hinv Hm];
    pose proof (inv_bound b Hinv) as Hbound.
  - lia.
  - destruct (IH b Hinv) as (b' & Hb' & Hq'); [lia|].
    exists b'. split; [|done]. by eapply rtc_l.
Qed.

End RelayProperties.

(** What the callbacks do to the widgets. *)
Lemma chunks_inserted (cs : list string) : forall w : ChatUI.Widgets,
  ChatUI.inserted (ChatUI.text
    (foldl (fun w cb => ChatUI.run cb w) w (ChatUI.AppendAssistantChunk <$> cs)))
  = ChatUI.inserted (ChatUI.text w) ++ ((fun chunk => (chunk, "assistant")) <$> cs).
Proof.
  induction cs as [|chunk cs IH]; intros w; cbn [fmap list_fmap foldl].
  - by rewrite app_nil_r.
  - rewrite IH. cbn. by rewrite <- app_assoc.
Qed.

Lemma schedule_run (cs : list string) (w : ChatUI.Widgets) :
  let w' := foldl (fun w cb => ChatUI.run cb w) w
              ([ChatUI.AppendAssistantHeader]
               ++ (ChatUI.AppendAssistantChunk <$> cs)
               ++ [ChatUI.SetInputEnabled true]) in
  ChatUI.entry_state w' = "normal"
  /\ ChatUI.send_btn_state w' = "normal"
  /\ ChatUI.inserted (ChatUI.text w')
     = ChatUI.inserted (ChatUI.text w)
       ++ ("Assistant: ", "assistant") :: ((fun chunk => (chunk, "assistant")) <$> cs).
Proof.
  intros w'. subst w'. rewrite app_assoc, foldl_snoc. cbn [ChatUI.run].
  split; [done|]. split; [done|].
  cbn [ChatUI.set_input_enabled ChatUI.text app foldl].
  rewrite chunks_inserted. cbn. by rewrite <- app_assoc.
Qed.

(** C7: for every request, in every interleaving of the worker and the UI
    thread, the callbacks delivered to the UI thread, followed by the ones
    still queued, are an initial part of the worker's schedule: the
    assistant header first, then one transcript append per chunk in the
    order the sequence produced them, and last, once the sequence has ended
    (by completion or after the error chunk), the update that re-enables the
    input controls.  Every run can be continued until nothing is left to do,
    none takes more than two steps per callback, and at rest the whole
    schedule has been delivered in that order: the transcript holds the
    header and the chunks, and the entry and the button are enabled. *)
Theorem relay_delivers_in_order
    (ollama_chat : Daemon) (c : OllamaChat) (widgets : ChatUI.Widgets)
    (user_text : string) :
  let served := request ollama_chat c user_text in
  let start := ChatUI.spawn c widgets user_text in
  let schedule :=
    [ChatUI.AppendAssistantHeader]
    ++ (ChatUI.AppendAssistantChunk <$> chunks served)
    ++ [ChatUI.SetInputEnabled true] in
  (forall a, rtc (ChatUI.step ollama_chat) start a ->
     (exists later, ChatUI.delivered a ++ ChatUI.after_queue a ++ later = schedule)
     /\ ChatUI.ui a = foldl (fun w cb => ChatUI.run cb w) widgets (ChatUI.delivered a)
     /\ (ChatUI.quiescent ollama_chat a ->
         ChatUI.delivered a = schedule
         /\ ChatUI.chat a = chat_after served
         /\ ChatUI.entry_state (ChatUI.ui a) = "normal"
         /\ ChatUI.send_btn_state (ChatUI.ui a) = "normal"
         /\ ChatUI.inserted (ChatUI.text (ChatUI.ui a))
            = ChatUI.inserted (ChatUI.text widgets)
              ++ ("Assistant: ", "assistant")
                 :: ((fun chunk => (chunk, "assistant")) <$> chunks served))
     /\ (exists b, rtc (ChatUI.step ollama_chat) a b
                   /\ ChatUI.quiescent ollama_chat b))
  /\ (forall n a, nsteps (ChatUI.step ollama_chat) n start a ->
        n <= 2 * length schedule).
Proof.
  intros served start schedule. split.
  - intros a Ha%inv_reachable.
    split; [exact (inv_prefix _ _ _ _ a Ha)|]. split; [by destruct Ha|]. split.
    + intros Hq. destruct (inv_quiescent _ _ _ _ a Ha Hq) as [Hd Hc].
      split; [done|]. split; [done|].
      destruct Ha as [-> _]. rewrite Hd. apply schedule_run.
    + by eapply inv_completes.
  - intros n a [Ha ->]%inv_nsteps. exact (inv_bound _ _ _ _ a Ha).
Qed.

Lemma relay_delivers_in_order_witness :
  exists b,
    rtc (ChatUI.step (fun _ _ => SYield (fragment "4") (SRaise "reset")))
      (ChatUI.spawn (__init__ "llama3.1" "") (ChatUI.mkWidgets (ChatUI.mkText "disabled" []) "disabled" "disabled") "2+2?") b
    /\ ChatUI.quiescent (fun _ _ => SYield (fragment "4") (SRaise "reset")) b
    /\ ChatUI.delivered b
       = [ChatUI.AppendAssistantHeader;
          ChatUI.AppendAssistantChunk "4";
          ChatUI.AppendAssistantChunk (error_text "reset" "llama3.1");
          ChatUI.SetInputEnabled true].
Proof.
  pose proof (relay_delivers_in_order
                (fun _ _ => SYield (fragment "4") (SRaise "reset"))
                (__init__ "llama3.1" "")
                (ChatUI.mkWidgets (ChatUI.mkText "disabled" []) "disabled" "disabled")
                "2+2?") as H.
  cbv zeta in H. destruct H as [H _].
  destruct (H _ (rtc_refl _ _)) as (_ & _ & _ & b & Hb & Hq).
  exists b. split; [exact Hb|]. split; [exact Hq|].
  destruct (H b Hb) as (_ & _ & Hd & _). exact (proj1 (Hd Hq)).
Defined.

(** * Further properties of the session *)

Lemma converse_kept rs : forall self,
  history (converse self rs) = history self ++ kept_transcript self rs.
Proof.
  induction rs as [|r rs IH]; intros self; cbn [kept_transcript].
  - by rewrite app_nil_r.
  - change (converse self (r :: rs)) with (converse (serve self r) rs).
    rewrite IH. destruct (raised (reply self r)) as [e|] eqn:Hr.
    + by rewrite (serve_raises _ _ e).
    + rewrite serve_completes by done. cbn [history]. by rewrite <- app_assoc.
Qed.

Lemma kept_transcript_roles rs : forall self,
  role <$> kept_transcript self rs
  = mjoin (replicate (completions self rs) ["user"; "assistant"]).
Proof.
  induction rs as [|r rs IH]; intros self; [done|].
  cbn [kept_transcript completions]. rewrite fmap_app, IH.
  by destruct (raised (reply self r)).
Qed.

Lemma completions_bound rs : forall self, completions self rs <= length rs.
Proof.
  induction rs as [|r rs IH]; intros self; [done|].
  cbn [completions length]. specialize (IH (serve self r)).
  destruct (raised (reply self r)); lia.
Qed.

(** X1: whatever requests of a conversation on a fresh session fail, the history
    at rest is the optional system turn followed by one user, assistant pair
    per completed request: a failed request leaves no turn behind, and no
    user turn stays without its answer. *)
Theorem history_pairs_whatever_fails
    (model system_prompt : string) (rs : list Request) :
  let fresh := __init__ model system_prompt in
  let h := history (converse fresh rs) in
  let n := completions fresh rs in
  h = history fresh ++ kept_transcript fresh rs
  /\ length h = system_turns system_prompt + 2 * n
  /\ role <$> drop (system_turns system_prompt) h
     = mjoin (replicate n ["user"; "assistant"])
  /\ n <= length rs.
Proof.
  intros fresh h n. subst h n.
  rewrite converse_kept. rewrite <- (init_length model). fold fresh.
  split; [done|]. split; [|split; [|apply completions_bound]].
  - rewrite length_app. f_equal.
    rewrite <- (length_fmap role), kept_transcript_roles.
    generalize (completions fresh rs). intros n.
    induction n as [|n IH]; [done|].
    change (S (S (length (mjoin (replicate n ["user"; "assistant"])))) = 2 * S n).
    rewrite IH. lia.
  - rewrite drop_app_length. apply kept_transcript_roles.
Qed.

Example history_pairs_example :
  history (converse (__init__ "llama3.1" "You are terse.")
    [mkRequest (fun _ _ => SRaise "connection refused") "2+2?";
     mkRequest (fun _ _ => SYield (fragment "4") SStop) "2+2?";
     mkRequest (fun _ _ => SYield (fragment "6") (SRaise "reset")) "3+3?"])
  = [system_turn "You are terse."; user_turn "2+2?"; assistant_turn "4"].
Proof. reflexivity. Qed.

(** ** A generator that is not consumed to its end *)

Section Abandoning.

Variable ollama_chat : Daemon.

(** Where a consumer that resumes the loop [fuel] times leaves the session:
    untouched while the generator rests at a [yield], and committed or
    rolled back once the body has returned. *)
Lemma drain_loop_any it : forall fuel acc self turn h,
  Py.pop (history self) = Some (turn, h) ->
  let d := drain_fuel ollama_chat fuel (AtYieldDelta it acc) self in
  match gen_after d with
  | AtYieldDelta _ _ | AtYieldErr => chat_after d = self
  | Finished =>
      match raised it with
      | None =>
          chat_after d
          = history_append self (assistant_turn (Py.join (acc ++ deltas it)))
      | Some _ => chat_after d = mkChat (model self) h
      end
  | Created _ => False
  end.
Proof.
  induction it as [chunk rest IH| |e]; intros fuel acc self turn h Hp;
    (destruct fuel as [|fuel]; [done|]).
  - destruct (Py.truthy (get_delta chunk)) eqn:Hd.
    + rewrite (drain_fuel_yielded _ _ _ _ (get_delta chunk)
                 (AtYieldDelta rest (acc ++ [get_delta chunk])) self)
        by (simpl; by rewrite Hd).
      specialize (IH fuel (acc ++ [get_delta chunk]) self turn h Hp).
      cbv zeta in *. cbn [gen_after chat_after raised].
      rewrite deltas_yield_truthy by done.
      by rewrite <- app_assoc in IH.
    + specialize (IH (S fuel) acc self turn h Hp).
      cbv zeta in *. cbn [raised]. rewrite deltas_yield_falsy by done.
      replace (drain_fuel ollama_chat (S fuel) (AtYieldDelta (SYield chunk rest) acc) self)
        with (drain_fuel ollama_chat (S fuel) (AtYieldDelta rest acc) self)
        by (simpl; by rewrite Hd).
      exact IH.
  - cbn. unfold deltas. cbn. by rewrite app_nil_r.
  - destruct fuel as [|fuel]; [done|]. cbn. by rewrite Hp.
Qed.

End Abandoning.

Lemma drain_loop_until_error (ollama_chat : Daemon) it : forall acc self e,
  raised it = Some e ->
  drain_fuel ollama_chat (S (length (deltas it))) (AtYieldDelta it acc) self
  = mkDrained (deltas it ++ [error_text e (model self)]) None AtYieldErr self.
Proof.
  induction it as [chunk rest IH| |e']; intros acc self e Hr;
    simpl in Hr; [|discriminate|].
  - destruct (Py.truthy (get_delta chunk)) eqn:Hd.
    + rewrite deltas_yield_truthy by done. cbn [length].
      rewrite (drain_fuel_yielded _ _ _ _ (get_delta chunk)
                 (AtYieldDelta rest (acc ++ [get_delta chunk])) self)
        by (simpl; by rewrite Hd).
      by rewrite (IH _ _ e).
    + rewrite deltas_yield_falsy by done.
      rewrite <- (IH acc self e) by done. simpl. by rewrite Hd.
  - by injection Hr as ->.
Qed.

Lemma get_delta_content_field (chunk : Chunk) :
  get_delta chunk = default "" (content_field chunk).
Proof.
  unfold get_delta, content_field.
  destruct (chunk !! "message"); simpl; [done|]. by rewrite lookup_empty.
Qed.

(** X2: however many chunks the consumer takes before it abandons the sequence,
    the model of the session is unchanged and the earlier turns stay in
    place; the history is the earlier one before the first resumption, the
    earlier one plus the user turn while the generator rests at a [yield],
    and what the whole request leaves once the body has returned. *)
Theorem partial_consumption_history
    (ollama_chat : Daemon) (self : OllamaChat) (user_text : string) (fuel : nat) :
  let d := drain_fuel ollama_chat fuel (Created user_text) self in
  model (chat_after d) = model self
  /\ history self `prefix_of` history (chat_after d)
  /\ match gen_after d with
     | Created _ => fuel = 0 /\ chat_after d = self
     | AtYieldDelta _ _ | AtYieldErr =>
         history (chat_after d) = history self ++ [user_turn user_text]
     | Finished => chat_after d = chat_after (request ollama_chat self user_text)
     end.
Proof.
  intros d. subst d. rewrite drain_created.
  destruct fuel as [|fuel]; [done|].
  set (it := ollama_chat (model self) (history self ++ [user_turn user_text])).
  pose proof (drain_loop_any ollama_chat it (S fuel) []
                (history_append self (user_turn user_text))
                (user_turn user_text) (history self) (pop_append _ _)) as H.
  cbv zeta in H.
  destruct (gen_after (drain_fuel ollama_chat (S fuel) (AtYieldDelta it [])
                         (history_append self (user_turn user_text))));
    [done| | |].
  - rewrite H. cbn. split; [done|]. split; [by apply prefix_app_r|done].
  - rewrite H. cbn. split; [done|]. split; [by apply prefix_app_r|done].
  - destruct (raised it) as [e|] eqn:Hr; rewrite H.
    + rewrite (request_raises _ _ _ e) by done. cbn. done.
    + rewrite request_completes by done. fold it. cbn.
      split; [done|]. split.
      * rewrite <- app_assoc. by apply prefix_app_r.
      * unfold history_append, Py.join. cbn [model history].
        by rewrite <- app_assoc.
Qed.

(** X3: the rollback waits for one more resumption: when the client raises and
    the consumer has received the error chunk, the generator rests inside
    the handler and the user turn of the request is still the last turn of
    the history; it is taken out only when the generator is resumed again. *)
Theorem rollback_waits_for_resumption
    (ollama_chat : Daemon) (self : OllamaChat) (user_text e : string) :
  let it := ollama_chat (model self) (history self ++ [user_turn user_text]) in
  raised it = Some e ->
  let d := drain_fuel ollama_chat (S (length (deltas it))) (Created user_text) self in
  chunks d = deltas it ++ [error_text e (model self)]
  /\ ended d = None
  /\ gen_after d = AtYieldErr
  /\ history (chat_after d) = history self ++ [user_turn user_text]
  /\ history (next ollama_chat (gen_after d) (chat_after d)).2 = history self.
Proof.
  intros it Hr d. subst d. rewrite drain_created. fold it.
  rewrite (drain_loop_until_error _ _ _ _ e) by done.
  cbn [chunks ended gen_after chat_after history history_append model next].
  rewrite pop_append. done.
Qed.

Lemma rollback_waits_for_resumption_witness :
  raised (SYield (fragment "Fo") (SRaise "reset")) = Some "reset"
  /\ history (chat_after
       (drain_fuel (fun _ _ => SYield (fragment "Fo") (SRaise "reset")) 2
          (Created "2+2?") (__init__ "llama3.1" "You are terse.")))
     = [system_turn "You are terse."; user_turn "2+2?"].
Proof.
  split; [reflexivity|].
  pose proof (rollback_waits_for_resumption
                (fun _ _ => SYield (fragment "Fo") (SRaise "reset"))
                (__init__ "llama3.1" "You are terse.") "2+2?" "reset" eq_refl) as H.
  cbv zeta in H. destruct H as (_ & _ & _ & Hh & _). exact Hh.
Defined.

(** X4: a stream that completes without a single non-empty fragment (no record
    at all, or only records whose content is missing or empty) yields no
    chunk, and still commits an assistant turn, with the empty text. *)
Theorem blank_answer_is_committed
    (ollama_chat : Daemon) (self : OllamaChat) (user_text : string) :
  let it := ollama_chat (model self) (history self ++ [user_turn user_text]) in
  raised it = None ->
  Forall (fun chunk => content_field chunk = None \/ content_field chunk = Some "")
    (records it) ->
  let d := request ollama_chat self user_text in
  chunks d = []
  /\ history (chat_after d)
     = history self ++ [mkTurn "user" user_text; mkTurn "assistant" ""].
Proof.
  intros it Hr Hblank d. subst d. rewrite request_completes by done. fold it.
  assert (Hd : deltas it = []).
  { unfold deltas. induction Hblank as [|chunk cs Hc _ IH]; [done|].
    rewrite fmap_cons, filter_cons_False; [done|].
    rewrite get_delta_content_field. intros Hne. apply Hne.
    by destruct Hc as [-> | ->]. }
  rewrite Hd. done.
Qed.

Lemma blank_answer_is_committed_witness :
  raised (SYield ∅ SStop) = None
  /\ Forall (fun chunk : Chunk => content_field chunk = None \/ content_field chunk = Some "")
       (records (SYield ∅ SStop))
  /\ history (chat_after (request (fun _ _ => SYield ∅ SStop)
                            (__init__ "llama3.1" "") "hi"))
     = [mkTurn "user" "hi"; mkTurn "assistant" ""].
Proof.
  assert (Hb : Forall (fun chunk : Chunk =>
                         content_field chunk = None \/ content_field chunk = Some "")
                 (records (SYield ∅ SStop)))
    by (repeat constructor).
  split; [reflexivity|]. split; [exact Hb|].
  exact (proj2 (blank_answer_is_committed (fun _ _ => SYield ∅ SStop)
                  (__init__ "llama3.1" "") "hi" eq_refl Hb)).
Defined.

(** * Further properties of the window *)

(** ** Stripping *)

Lemma lstrip_head (s : string) a t :
  Py.lstrip s = String a t -> Py.isspace a = false.
Proof.
  induction s as [|b s IH]; simpl; [discriminate|].
  destruct (Py.isspace b) eqn:Hb; [done|]. by intros [= <- _].
Qed.

Lemma lstrip_blank (s : string) :
  Forall (fun a => Py.isspace a = true) (list_ascii_of_string s) ->
  Py.lstrip s = "".
Proof.
  induction s as [|b s IH]; simpl; [done|].
  intros [Hb Hs]%Forall_cons. rewrite Hb. by apply IH.
Qed.

Lemma rstrip_cons a (s : string) :
  Py.isspace a = false -> exists kept, Py.rstrip (String a s) = String a kept.
Proof. intros Ha. simpl. rewrite Ha. destruct (Py.rstrip s); by eexists. Qed.

Lemma rstrip_last (s : string) : forall t a,
  Py.rstrip s = t +:+ String a "" -> Py.isspace a = false.
Proof.
  induction s as [|b s IH]; intros t a; simpl.
  - by destruct t.
  - destruct (Py.rstrip s) as [|c kept] eqn:Hk.
    + destruct (Py.isspace b) eqn:Hb; [by destruct t|].
      destruct t as [|x [|y t]]; [|discriminate..]. by intros [= <-].
    + destruct t as [|x t]; [discriminate|].
      change (String x t +:+ String a "") with (String x (t +:+ String a "")).
      intros [= _ H]. by apply (IH t a).
Qed.

(** What [strip] returns neither starts nor ends with whitespace. *)
Lemma strip_trimmed (s : string) :
  (forall a t, Py.strip s = String a t -> Py.isspace a = false)
  /\ (forall t a, Py.strip s = t +:+ String a "" -> Py.isspace a = false).
Proof.
  split; [|intros t a; apply rstrip_last].
  intros a t. unfold Py.strip.
  destruct (Py.lstrip s) as [|b u] eqn:Hl; [discriminate|].
  pose proof (lstrip_head _ _ _ Hl) as Hb.
  destruct (rstrip_cons b u Hb) as [kept ->]. by intros [= <- _].
Qed.

Example strip_example :
  Py.strip ("  2+2? " +:+ Py.nl) = "2+2?" /\ Py.strip (" " +:+ Py.nl) = "".
Proof. split; reflexivity. Qed.

(** ** Appending to the transcript *)

Lemma append_inserted (s : string) (tag : option string) (ui : ChatUI.Widgets) :
  ChatUI.inserted (ChatUI.text (ChatUI._append s tag ui))
  = ChatUI.inserted (ChatUI.text ui) ++ [(s, default "" tag); (Py.nl, "")].
Proof.
  unfold ChatUI._append.
  destruct tag as [[|a t]|]; cbn; by rewrite <- app_assoc.
Qed.

(** X7: [_append] adds the text under its tag (under no tag when the tag is
    missing or empty) and a line feed, after what the transcript holds, and
    leaves the transcript read-only, whatever state it found it in. *)
Theorem append_adds_line (s : string) (tag : option string) (ui : ChatUI.Widgets) :
  let ui' := ChatUI._append s tag ui in
  ChatUI.inserted (ChatUI.text ui')
  = ChatUI.inserted (ChatUI.text ui) ++ [(s, default "" tag); (Py.nl, "")]
  /\ ChatUI.text_state (ChatUI.text ui') = "disabled"
  /\ ChatUI.entry_state ui' = ChatUI.entry_state ui
  /\ ChatUI.send_btn_state ui' = ChatUI.send_btn_state ui.
Proof.
  intros ui'. subst ui'. split; [apply append_inserted|].
  unfold ChatUI._append. by destruct tag as [[|a t]|].
Qed.

(** ** Sending *)

(** X8: when the entry holds nothing but whitespace (or nothing at all),
    [on_send] starts no request and leaves the window as it is, the entry
    included. *)
Theorem on_send_ignores_blank (w : ChatUI.Window) :
  Forall (fun a => Py.isspace a = true) (list_ascii_of_string (ChatUI.entry_text w)) ->
  ChatUI.on_send w = (w, None).
Proof.
  intros Hb. unfold ChatUI.on_send, Py.strip.
  by rewrite (lstrip_blank _ Hb).
Qed.

Lemma on_send_ignores_blank_witness :
  Forall (fun a => Py.isspace a = true) (list_ascii_of_string (" " +:+ Py.nl))
  /\ ChatUI.on_send
       (ChatUI.mkWindow
          (ChatUI.mkWidgets (ChatUI.mkText "disabled" []) "normal" "normal")
          (" " +:+ Py.nl) (__init__ "llama3.1" ""))
     = (ChatUI.mkWindow
          (ChatUI.mkWidgets (ChatUI.mkText "disabled" []) "normal" "normal")
          (" " +:+ Py.nl) (__init__ "llama3.1" ""),
        None).
Proof.
  assert (Hb : Forall (fun a => Py.isspace a = true)
                 (list_ascii_of_string (" " +:+ Py.nl)))
    by (repeat constructor).
  split; [exact Hb|].
  exact (on_send_ignores_blank
           (ChatUI.mkWindow
              (ChatUI.mkWidgets (ChatUI.mkText "disabled" []) "normal" "normal")
              (" " +:+ Py.nl) (__init__ "llama3.1" "")) Hb).
Defined.

(** X9: when the entry is enabled and holds more than whitespace, [on_send]
    starts one worker on the stripped text, which is not empty and neither
    starts nor ends with whitespace; it empties the entry, disables the entry
    and the button, and adds the line of the user to the transcript.  A
    second [on_send] right after it (the entry being empty) does nothing. *)
Theorem on_send_starts_request (w : ChatUI.Window) :
  ChatUI.entry_state (ChatUI.widgets w) = "normal" ->
  Py.strip (ChatUI.entry_text w) <> "" ->
  let sent := Py.strip (ChatUI.entry_text w) in
  exists w' app,
    ChatUI.on_send w = (w', Some app)
    /\ ChatUI.worker app = ChatUI.Started sent
    /\ (forall a t, sent = String a t -> Py.isspace a = false)
    /\ (forall t a, sent = t +:+ String a "" -> Py.isspace a = false)
    /\ ChatUI.chat app = ChatUI.session w
    /\ ChatUI.after_queue app = [] /\ ChatUI.delivered app = []
    /\ ChatUI.ui app = ChatUI.widgets w'
    /\ ChatUI.session w' = ChatUI.session w
    /\ ChatUI.entry_text w' = ""
    /\ ChatUI.entry_state (ChatUI.widgets w') = "disabled"
    /\ ChatUI.send_btn_state (ChatUI.widgets w') = "disabled"
    /\ ChatUI.inserted (ChatUI.text (ChatUI.widgets w'))
       = ChatUI.inserted (ChatUI.text (ChatUI.widgets w))
         ++ [("You: " +:+ sent, "user"); (Py.nl, "")]
    /\ ChatUI.on_send w' = (w', None).
Proof.
  intros Hn Hs sent.
  destruct (strip_trimmed (ChatUI.entry_text w)) as [Hhead Hlast]. fold sent in Hhead, Hlast.
  unfold ChatUI.on_send. fold sent.
  apply truthy_nonempty in Hs. fold sent in Hs. rewrite Hs. cbn [negb].
  unfold ChatUI.entry_delete_all. rewrite Hn. cbn [String.eqb Ascii.eqb Bool.eqb].
  eexists _, _. split; [reflexivity|].
  cbn [ChatUI.spawn ChatUI.worker ChatUI.chat ChatUI.after_queue ChatUI.delivered
       ChatUI.ui ChatUI.widgets ChatUI.session ChatUI.entry_text].
  repeat (split; [done|]).
  split; [|done].
  unfold ChatUI._append_user.
  exact (append_inserted ("You: " +:+ sent) (Some "user") (ChatUI.widgets w)).
Qed.

Lemma on_send_starts_request_witness :
  ChatUI.entry_state (ChatUI.mkWidgets (ChatUI.mkText "disabled" []) "normal" "normal")
  = "normal"
  /\ Py.strip (" 2+2? " +:+ Py.nl) <> ""
  /\ exists w' app,
       ChatUI.on_send
         (ChatUI.mkWindow
            (ChatUI.mkWidgets (ChatUI.mkText "disabled" []) "normal" "normal")
            (" 2+2? " +:+ Py.nl) (__init__ "llama3.1" ""))
       = (w', Some app)
       /\ ChatUI.worker app = ChatUI.Started "2+2?".
Proof.
  split; [reflexivity|]. split; [discriminate|].
  destruct (on_send_starts_request
              (ChatUI.mkWindow
                 (ChatUI.mkWidgets (ChatUI.mkText "disabled" []) "normal" "normal")
                 (" 2+2? " +:+ Py.nl) (__init__ "llama3.1" ""))
              eq_refl ltac:(discriminate)) as (w' & app & H1 & H2 & _).
  exists w', app. split; [exact H1 | exact H2].
Defined.

(** ** A request from the key press to rest *)

Lemma run_keeps_input cb (w : ChatUI.Widgets) :
  ChatUI.keeps_input cb ->
  ChatUI.entry_state (ChatUI.run cb w) = ChatUI.entry_state w
  /\ ChatUI.send_btn_state (ChatUI.run cb w) = ChatUI.send_btn_state w
  /\ ChatUI.text_state (ChatUI.text (ChatUI.run cb w)) = "disabled".
Proof. by destruct cb. Qed.

Lemma foldl_keeps_input cbs : forall w : ChatUI.Widgets,
  Forall ChatUI.keeps_input cbs ->
  ChatUI.entry_state (foldl (fun w cb => ChatUI.run cb w) w cbs)
  = ChatUI.entry_state w
  /\ ChatUI.send_btn_state (foldl (fun w cb => ChatUI.run cb w) w cbs)
     = ChatUI.send_btn_state w.
Proof.
  induction cbs as [|cb cbs IH]; intros w; [done|].
  intros [Hcb Hcbs]%Forall_cons. cbn [foldl].
  destruct (IH (ChatUI.run cb w) Hcbs) as [-> ->].
  by destruct (run_keeps_input cb w Hcb) as (-> & -> & _).
Qed.

Lemma chunks_keep_input (cs : list string) :
  Forall ChatUI.keeps_input
    (ChatUI.AppendAssistantHeader :: (ChatUI.AppendAssistantChunk <$> cs)).
Proof.
  constructor; [done|]. induction cs as [|chunk cs IH]; by constructor.
Qed.

(** Until the thread is over and the queue is empty, only header and chunk
    callbacks have been delivered. *)
Lemma delivered_keep_input (ollama_chat : Daemon) c widgets user_text a :
  ChatUI.relay_inv ollama_chat c widgets user_text a ->
  ChatUI.quiescent ollama_chat a \/ Forall ChatUI.keeps_input (ChatUI.delivered a).
Proof.
  intros [_ Hw]. unfold ChatUI.quiescent, ChatUI.worker_step, ChatUI.ui_step.
  destruct (ChatUI.worker a) as [u'|gen| |exc]; [| | |done].
  - destruct Hw as (_ & _ & Hq). apply app_eq_nil in Hq as [-> _]. by right.
  - destruct Hw as (sent & Hq & _). right.
    pose proof (chunks_keep_input sent) as H. rewrite <- Hq in H.
    by apply Forall_app in H as [H _].
  - destruct Hw as [Hq _].
    destruct (ChatUI.after_queue a) as [|cb q] eqn:Hqa using rev_ind; [by left|].
    clear IHq. right. unfold ChatUI.scheduled in Hq.
    change ([ChatUI.AppendAssistantHeader]
            ++ (ChatUI.AppendAssistantChunk <$> chunks (request ollama_chat c user_text))
            ++ [ChatUI.SetInputEnabled true])
      with ((ChatUI.AppendAssistantHeader
             :: (ChatUI.AppendAssistantChunk <$> chunks (request ollama_chat c user_text)))
            ++ [ChatUI.SetInputEnabled true]) in Hq.
    rewrite app_assoc in Hq. apply app_inj_tail in Hq as [Hq _].
    pose proof (chunks_keep_input (chunks (request ollama_chat c user_text))) as H.
    rewrite <- Hq in H. by apply Forall_app in H as [H _].
Qed.

(** X10: while a request is in flight the input stays disabled: from the start of
    the worker on, in every interleaving, the entry and the button are
    disabled in every state but the ones at rest. *)
Theorem input_disabled_while_in_flight
    (ollama_chat : Daemon) (c : OllamaChat) (widgets : ChatUI.Widgets)
    (user_text : string) (a : ChatUI.App) :
  ChatUI.entry_state widgets = "disabled" ->
  ChatUI.send_btn_state widgets = "disabled" ->
  rtc (ChatUI.step ollama_chat) (ChatUI.spawn c widgets user_text) a ->
  ChatUI.quiescent ollama_chat a
  \/ (ChatUI.entry_state (ChatUI.ui a) = "disabled"
      /\ ChatUI.send_btn_state (ChatUI.ui a) = "disabled").
Proof.
  intros He Hb Ha%inv_reachable.
  destruct (delivered_keep_input _ _ _ _ _ Ha) as [Hq|Hk]; [by left|right].
  destruct Ha as [-> _].
  destruct (foldl_keeps_input _ widgets Hk) as [-> ->]. done.
Qed.

Lemma input_disabled_while_in_flight_witness :
  exists a,
    rtc (ChatUI.step (fun _ _ => SYield (fragment "4") SStop))
      (ChatUI.spawn (__init__ "llama3.1" "")
         (ChatUI.mkWidgets (ChatUI.mkText "disabled" []) "disabled" "disabled")
         "2+2?") a
    /\ ChatUI.delivered a
       = [ChatUI.AppendAssistantHeader; ChatUI.AppendAssistantChunk "4"]
    /\ ChatUI.entry_state (ChatUI.ui a) = "disabled"
    /\ ChatUI.send_btn_state (ChatUI.ui a) = "disabled".
Proof.
  eexists. split; [|split].
  - eapply rtc_l; [apply ChatUI.step_worker; reflexivity|].
    eapply rtc_l; [apply ChatUI.step_worker; reflexivity|].
    eapply rtc_l; [apply ChatUI.step_ui; reflexivity|].
    eapply rtc_l; [apply ChatUI.step_ui; reflexivity|].
    apply rtc_refl.
  - reflexivity.
  - refine (match input_disabled_while_in_flight
                    (fun _ _ => SYield (fragment "4") SStop)
                    (__init__ "llama3.1" "")
                    (ChatUI.mkWidgets (ChatUI.mkText "disabled" []) "disabled" "disabled")
                    "2+2?" _ eq_refl eq_refl _ with
            | or_introl Hq => _
            | or_intror Hd => Hd
            end).
    + eapply rtc_l; [apply ChatUI.step_worker; reflexivity|].
      eapply rtc_l; [apply ChatUI.step_worker; reflexivity|].
      eapply rtc_l; [apply ChatUI.step_ui; reflexivity|].
      eapply rtc_l; [apply ChatUI.step_ui; reflexivity|].
      apply rtc_refl.
    + destruct Hq as [Hq _]. discriminate Hq.
Defined.

Lemma foldl_text_disabled cbs : forall w : ChatUI.Widgets,
  Forall ChatUI.keeps_input cbs ->
  ChatUI.text_state (ChatUI.text w) = "disabled" ->
  ChatUI.text_state (ChatUI.text (foldl (fun w cb => ChatUI.run cb w) w cbs))
  = "disabled".
Proof.
  induction cbs as [|cb cbs IH]; intros w; [done|].
  intros [Hcb Hcbs]%Forall_cons _. cbn [foldl]. apply IH; [done|].
  by destruct (run_keeps_input cb w Hcb) as (_ & _ & ->).
Qed.

Lemma schedule_text_state (cs : list string) (w : ChatUI.Widgets) :
  ChatUI.text_state (ChatUI.text
    (foldl (fun w cb => ChatUI.run cb w) w
       ([ChatUI.AppendAssistantHeader]
        ++ (ChatUI.AppendAssistantChunk <$> cs)
        ++ [ChatUI.SetInputEnabled true])))
  = "disabled".
Proof.
  rewrite app_assoc, foldl_snoc.
  cbn [ChatUI.run ChatUI.set_input_enabled ChatUI.text app foldl].
  apply foldl_text_disabled; [|done].
  pose proof (chunks_keep_input cs) as H. by apply Forall_cons in H as [_ H].
Qed.

(** X11: from the key press to rest.  When [on_send] has started a request
    and the application has come to rest (the thread has returned and the
    queue of callbacks is empty, which takes a daemon stream that ends), the
    transcript is the earlier one followed by the line of the user, the
    assistant header and the chunks of the request in order (the error text
    last if the client raised); the transcript is read-only, the entry and
    the button are enabled again, and the session is the one the consumed
    request leaves.  Nothing is said of a run that never comes to rest. *)
Theorem sent_request_reaches_rest
    (ollama_chat : Daemon) (w w' : ChatUI.Window) (app a : ChatUI.App) :
  ChatUI.on_send w = (w', Some app) ->
  rtc (ChatUI.step ollama_chat) app a ->
  ChatUI.quiescent ollama_chat a ->
  let sent := Py.strip (ChatUI.entry_text w) in
  let served := request ollama_chat (ChatUI.session w) sent in
  ChatUI.inserted (ChatUI.text (ChatUI.ui a))
  = ChatUI.inserted (ChatUI.text (ChatUI.widgets w))
    ++ [("You: " +:+ sent, "user"); (Py.nl, "")]
    ++ ("Assistant: ", "assistant")
       :: ((fun chunk => (chunk, "assistant")) <$> chunks served)
  /\ ChatUI.text_state (ChatUI.text (ChatUI.ui a)) = "disabled"
  /\ ChatUI.entry_state (ChatUI.ui a) = "normal"
  /\ ChatUI.send_btn_state (ChatUI.ui a) = "normal"
  /\ ChatUI.chat a = chat_after served.
Proof.
  intros Hsend Ha Hq sent served. unfold ChatUI.on_send in Hsend. fold sent in Hsend.
  destruct (Py.truthy sent); cbn [negb] in Hsend; [|discriminate].
  injection Hsend as <- <-.
  assert (Hs : ChatUI.session (ChatUI.entry_delete_all w) = ChatUI.session w)
    by (unfold ChatUI.entry_delete_all; by destruct (String.eqb _ _)).
  assert (Hw : ChatUI.widgets (ChatUI.entry_delete_all w) = ChatUI.widgets w)
    by (unfold ChatUI.entry_delete_all; by destruct (String.eqb _ _)).
  rewrite Hs, Hw in Ha. apply inv_reachable in Ha. fold served in Ha.
  destruct (inv_quiescent _ _ _ _ a Ha Hq) as [Hd Hc].
  fold served in Hc. split; [|split; [|split; [|split; [|done]]]].
  - destruct Ha as [-> _]. rewrite Hd. unfold ChatUI.scheduled. fold served.
    rewrite (proj2 (proj2 (schedule_run (chunks served) _))).
    cbn [ChatUI.set_input_enabled ChatUI.text].
    unfold ChatUI._append_user. rewrite append_inserted.
    by rewrite <- app_assoc.
  - destruct Ha as [-> _]. rewrite Hd. apply schedule_text_state.
  - destruct Ha as [-> _]. rewrite Hd. apply schedule_run.
  - destruct Ha as [-> _]. rewrite Hd. apply schedule_run.
Qed.

Lemma sent_request_reaches_rest_witness :
  exists w' app a,
    ChatUI.on_send
      (ChatUI.mkWindow
         (ChatUI.mkWidgets (ChatUI.mkText "disabled" []) "normal" "normal")
         " 2+2? " (__init__ "llama3.1" ""))
    = (w', Some app)
    /\ rtc (ChatUI.step (fun _ _ => SYield (fragment "4") SStop)) app a
    /\ ChatUI.quiescent (fun _ _ => SYield (fragment "4") SStop) a
    /\ ChatUI.inserted (ChatUI.text (ChatUI.ui a))
       = [("You: 2+2?", "user"); (Py.nl, ""); ("Assistant: ", "assistant");
          ("4", "assistant")]
    /\ ChatUI.entry_state (ChatUI.ui a) = "normal".
Proof.
  pose (d := (fun (_ : string) (_ : list Turn) => SYield (fragment "4") SStop) : Daemon).
  pose (W := ChatUI.mkWindow
               (ChatUI.mkWidgets (ChatUI.mkText "disabled" []) "normal" "normal")
               " 2+2? " (__init__ "llama3.1" "")).
  pose (w' := (ChatUI.on_send W).1).
  pose (app := ChatUI.spawn (__init__ "llama3.1" "") (ChatUI.widgets w') "2+2?").
  assert (Hsend : ChatUI.on_send W = (w', Some app)) by reflexivity.
  eassert (Hrun : rtc (ChatUI.step d) app _).
  { eapply rtc_l; [apply ChatUI.step_worker; reflexivity|].
    eapply rtc_l; [apply ChatUI.step_worker; reflexivity|].
    eapply rtc_l; [apply ChatUI.step_worker; reflexivity|].
    eapply rtc_l; [apply ChatUI.step_ui; reflexivity|].
    eapply rtc_l; [apply ChatUI.step_ui; reflexivity|].
    eapply rtc_l; [apply ChatUI.step_ui; reflexivity|].
    apply rtc_refl. }
  match type of Hrun with
  | rtc _ _ ?a =>
      assert (Hq : ChatUI.quiescent d a) by (split; reflexivity);
      destruct (sent_request_reaches_rest d W w' app a Hsend Hrun Hq)
        as (Hi & _ & He & _);
      exists w', app, a
  end.
  split; [exact Hsend|]. split; [exact Hrun|]. split; [exact Hq|].
  split; [exact Hi | exact He].
Defined.

(** ** The transcript while the answer streams *)

Lemma run_inserted cbs : forall w : ChatUI.Widgets,
  ChatUI.inserted (ChatUI.text (foldl (fun w cb => ChatUI.run cb w) w cbs))
  = ChatUI.inserted (ChatUI.text w) ++ (cbs ≫= ChatUI.pieces).
Proof.
  induction cbs as [|cb cbs IH]; intros w; cbn [foldl].
  - cbn. by rewrite app_nil_r.
  - rewrite IH, bind_cons, app_assoc. f_equal. by destruct cb; cbn; rewrite ?app_nil_r.
Qed.

Lemma schedule_pieces (cs : list string) :
  ([ChatUI.AppendAssistantHeader]
   ++ (ChatUI.AppendAssistantChunk <$> cs)
   ++ [ChatUI.SetInputEnabled true]) ≫= ChatUI.pieces
  = ("Assistant: ", "assistant") :: ((fun chunk => (chunk, "assistant")) <$> cs).
Proof.
  cbn [app]. rewrite bind_cons. cbn [ChatUI.pieces app]. f_equal.
  induction cs as [|chunk cs IH]; [done|].
  cbn [fmap list_fmap app]. rewrite bind_cons. cbn [ChatUI.pieces app].
  f_equal. exact IH.
Qed.

(** X12: at every moment of a request, in every interleaving, the transcript is
    the one the worker found followed by an initial part of what the request
    shows in the end: the assistant header, then the chunks in the order the
    sequence produced them.  Nothing shown earlier is altered or removed. *)
Theorem transcript_grows_in_order
    (ollama_chat : Daemon) (c : OllamaChat) (widgets : ChatUI.Widgets)
    (user_text : string) (a : ChatUI.App) :
  rtc (ChatUI.step ollama_chat) (ChatUI.spawn c widgets user_text) a ->
  exists k,
    ChatUI.inserted (ChatUI.text (ChatUI.ui a))
    = ChatUI.inserted (ChatUI.text widgets)
      ++ take k (("Assistant: ", "assistant")
                 :: ((fun chunk => (chunk, "assistant"))
                       <$> chunks (request ollama_chat c user_text))).
Proof.
  intros Ha%inv_reachable.
  destruct (inv_prefix _ _ _ _ a Ha) as [later Hp]. destruct Ha as [-> _].
  rewrite run_inserted. rewrite <- schedule_pieces.
  unfold ChatUI.scheduled in Hp. rewrite <- Hp, bind_app.
  exists (length (ChatUI.delivered a ≫= ChatUI.pieces)).
  by rewrite take_app_length.
Qed.

Lemma transcript_grows_in_order_witness :
  exists a k,
    rtc (ChatUI.step (fun _ _ => SYield (fragment "4") SStop))
      (ChatUI.spawn (__init__ "llama3.1" "")
         (ChatUI.mkWidgets (ChatUI.mkText "disabled" []) "disabled" "disabled")
         "2+2?") a
    /\ ChatUI.inserted (ChatUI.text (ChatUI.ui a))
       = take k [("Assistant: ", "assistant"); ("4", "assistant")].
Proof.
  eexists.
  refine (match transcript_grows_in_order
                  (fun _ _ => SYield (fragment "4") SStop)
                  (__init__ "llama3.1" "")
                  (ChatUI.mkWidgets (ChatUI.mkText "disabled" []) "disabled" "disabled")
                  "2+2?" _ _ with
          | ex_intro _ k Hk => ex_intro _ k (conj _ Hk)
          end).
  - eapply rtc_l; [apply ChatUI.step_worker; reflexivity|].
    eapply rtc_l; [apply ChatUI.step_ui; reflexivity|].
    apply rtc_refl.
  - eapply rtc_l; [apply ChatUI.step_worker; reflexivity|].
    eapply rtc_l; [apply ChatUI.step_ui; reflexivity|].
    apply rtc_refl.
Defined.

(** ** Start of the program *)

(** X13: the window made at start: the session queries the model named by
    [OLLAMA_MODEL], or [llama3.1] when the variable is not set, and the
    banner of the transcript names that same model; the history holds the
    system prompt of the environment (the default one when none is set), or
    nothing when that prompt is empty; the transcript is read-only and the
    input controls are enabled, with an empty entry. *)
Theorem startup_window (environ : gmap string string) :
  let w := ChatUI.main environ in
  let prompt := default
    "You are a helpful, concise assistant. Answer clearly and directly."
    (environ !! "SYSTEM_PROMPT") in
  model (ChatUI.session w) = default "llama3.1" (environ !! "OLLAMA_MODEL")
  /\ ChatUI.inserted (ChatUI.text (ChatUI.widgets w))
     = [("Using model: " +:+ model (ChatUI.session w) +:+ Py.nl
         +:+ "Type your message and press Enter." +:+ Py.nl, "meta");
        (Py.nl, "")]
  /\ history (ChatUI.session w)
     = (if decide (prompt = "") then [] else [mkTurn "system" prompt])
  /\ ChatUI.text_state (ChatUI.text (ChatUI.widgets w)) = "disabled"
  /\ ChatUI.entry_state (ChatUI.widgets w) = "normal"
  /\ ChatUI.send_btn_state (ChatUI.widgets w) = "normal"
  /\ ChatUI.entry_text w = "".
Proof.
  intros w prompt. subst w. unfold ChatUI.main, ChatUI.__init__.
  cbn [ChatUI.session ChatUI.widgets ChatUI.entry_text].
  assert (Hm : getenv environ "OLLAMA_MODEL" (DEFAULT_MODEL environ)
               = default "llama3.1" (environ !! "OLLAMA_MODEL")).
  { unfold DEFAULT_MODEL, getenv. by destruct (environ !! "OLLAMA_MODEL"). }
  rewrite Hm, init_model. split; [done|]. split; [|split; [|done]].
  - unfold ChatUI._append_meta. by rewrite append_inserted.
  - unfold SYSTEM_PROMPT, getenv. fold prompt.
    destruct (decide (prompt = "")) as [->|Hp]; [done|].
    by apply init_with_prompt.
Qed.

(** * The sequence as a whole *)

Lemma error_text_nonempty (e model : string) : error_text e model <> "".
Proof. discriminate. Qed.

(** X5: no chunk of the sequence is ever the empty string, whether the stream
    completes or the client raises: the fragments yielded are non-empty and
    the error text starts with its tag. *)
Theorem chunks_never_empty
    (ollama_chat : Daemon) (self : OllamaChat) (user_text : string) :
  Forall (fun chunk => chunk <> "") (chunks (request ollama_chat self user_text)).
Proof.
  destruct (raised (ollama_chat (model self) (history self ++ [user_turn user_text])))
    as [e|] eqn:Hr.
  - rewrite (request_raises _ _ _ e) by done. cbn [chunks].
    apply Forall_app. split; [apply deltas_nonempty|].
    constructor; [apply error_text_nonempty | constructor].
  - rewrite request_completes by done. apply deltas_nonempty.
Qed.

(** X6: the sequence is finite: a consumer reaches its [StopIteration] within
    two resumptions more than the stream has records, having received at
    most one chunk per record and one more for an error; resuming more often
    changes nothing, and the exhausted generator keeps answering
    [StopIteration] without touching the session. *)
Theorem sequence_is_finite
    (ollama_chat : Daemon) (self : OllamaChat) (user_text : string) (fuel : nat) :
  let it := ollama_chat (model self) (history self ++ [user_turn user_text]) in
  2 + length (records it) <= fuel ->
  let d := drain_fuel ollama_chat fuel (Created user_text) self in
  d = request ollama_chat self user_text
  /\ ended d = Some StopIteration
  /\ gen_after d = Finished
  /\ length (chunks d) <= length (records it) + 1
  /\ next ollama_chat (gen_after d) (chat_after d)
     = (StopIteration, Finished, chat_after d).
Proof.
  intros it Hf d. subst d. rewrite request_fuel_enough by done.
  destruct (request_ends ollama_chat self user_text) as [He Hg].
  split; [done|]. split; [done|]. split; [done|]. split; [|by rewrite Hg].
  pose proof (deltas_length it) as Hl.
  destruct (raised it) as [e|] eqn:Hr.
  - rewrite (request_raises _ _ _ e) by done. cbn [chunks].
    rewrite length_app. cbn [length]. fold it. lia.
  - rewrite request_completes by done. cbn [chunks]. fold it. lia.
Qed.

Lemma sequence_is_finite_witness :
  2 + length (records (SYield (fragment "4") (SYield ∅ SStop))) <= 7
  /\ drain_fuel (fun _ _ => SYield (fragment "4") (SYield ∅ SStop)) 7
       (Created "2+2?") (__init__ "llama3.1" "")
     = request (fun _ _ => SYield (fragment "4") (SYield ∅ SStop))
         (__init__ "llama3.1" "") "2+2?".
Proof.
  assert (H : 2 + length (records (SYield (fragment "4") (SYield ∅ SStop))) <= 7)
    by (cbn; lia).
  split; [exact H|].
  exact (proj1 (sequence_is_finite (fun _ _ => SYield (fragment "4") (SYield ∅ SStop))
                  (__init__ "llama3.1" "") "2+2?" 7 H)).
Defined.
